(** * Multi-timeframe trading dashboard: extraction, analysis, signals, alerts

    Shallow embedding of the logic in
    - [src/components/ScreenCapture.tsx]  ([extractPrice],
      [extractStructuresFromAnalysis]),
    - [src/lib/openai.ts]                 ([parseAnalysis], [parseSignal],
      [analyzeChart], [generateSignal]),
    - [src/components/AlertSystem.tsx]    (the subscription handler,
      [showAlert], [removeToast]),
    and, for the further properties, [analyzeCapture] of ScreenCapture.tsx,
    [handleFiles] of TrainingUpload.tsx, [loadSignals] of the signal list,
    [loadSettings]/[saveSettings] of the settings form and the confidence
    bar of the market-structure list.

    Conventions.
    - A JavaScript string is modelled when all its code units are below
      256, as a [string] of 8-bit characters (the code points U+0000 to
      U+00FF).  [toLowerCase] is JavaScript's mapping on these code units:
      it changes A-Z and the capital letters U+00C0 to U+00DE (U+00D7, the
      multiplication sign, apart).  Upper-casing leaves this range (U+00DF
      becomes two letters, U+00FF and U+00B5 leave it), so
      [toUpperCase] is not a function of the model: where the source calls
      it, its result is a parameter.
    - A JavaScript number is an exact rational [Q].  Rounding to the nearest
      double is not modelled, with one exception that the code observes:
      a decimal literal at or below 2^-1075 is read as 0 by [parseFloat].
    - [number | null] is [option Q]; a thrown exception is the [Thrown]
      constructor of [Outcome]. *)

From Stdlib Require Import Ascii QArith.
From stdpp Require Import gmap strings list.

Local Open Scope string_scope.
Local Open Scope bool_scope.

(** ** JavaScript string primitives used by the sources *)
Module JS.

Definition is_upper (c : ascii) : bool :=
  let n := N_of_ascii c in
  ((65 <=? n)%N && (n <=? 90)%N)
  || ((192 <=? n)%N && (n <=? 222)%N && negb (n =? 215)%N).

Definition lower_char (c : ascii) : ascii :=
  if is_upper c then ascii_of_N (N_of_ascii c + 32) else c.

Fixpoint map_chars (f : ascii -> ascii) (s : string) : string :=
  match s with
  | EmptyString => EmptyString
  | String c r => String (f c) (map_chars f r)
  end.

(** [s.toLowerCase()] *)
Definition toLowerCase (s : string) : string := map_chars lower_char s.

(** [s.startsWith(p)] *)
Fixpoint startsWith (s p : string) : bool :=
  match p, s with
  | EmptyString, _ => true
  | String _ _, EmptyString => false
  | String a p', String b s' => Ascii.eqb a b && startsWith s' p'
  end.

(** [s.includes(searchString)] *)
Fixpoint includes (s searchString : string) : bool :=
  match s with
  | EmptyString => startsWith EmptyString searchString
  | String _ r => startsWith s searchString || includes r searchString
  end.

Definition newline : ascii := "010"%char.

(** [s.split('\n')]: never empty, the empty string gives one empty piece. *)
Fixpoint split_newline (s : string) : list string :=
  match s with
  | EmptyString => [EmptyString]
  | String c r =>
      if Ascii.eqb c newline then EmptyString :: split_newline r
      else match split_newline r with
           | h :: t => String c h :: t
           | [] => [String c EmptyString]
           end
  end.

Definition is_digit (c : ascii) : bool :=
  let n := N_of_ascii c in (48 <=? n)%N && (n <=? 57)%N.

Definition digit_value (c : ascii) : N := (N_of_ascii c - 48)%N.

(** Leading run of decimal digits and what follows it. *)
Fixpoint span_digits (s : string) : string * string :=
  match s with
  | String c r =>
      if is_digit c then let '(d, rest) := span_digits r in (String c d, rest)
      else (EmptyString, s)
  | EmptyString => (EmptyString, EmptyString)
  end.

Fixpoint digits_to_N (acc : N) (s : string) : N :=
  match s with
  | EmptyString => acc
  | String c r => digits_to_N (acc * 10 + digit_value c)%N r
  end.

Fixpoint pow10 (k : nat) : positive :=
  match k with
  | O => 1%positive
  | S k' => (10 * pow10 k')%positive
  end.

(** The value of the decimal literal [ip.fp]. *)
Definition decimal_value (ip fp : string) : Q :=
  Z.of_N (digits_to_N 0 (ip ++ fp)) # pow10 (String.length fp).


(** [parseFloat(s)] for the strings the sources pass to it: a run of digits,
    optionally followed by a dot and a run of digits; anything after that
    prefix is ignored.  [None] is NaN.  A literal that is nearer to 0 than to
    the least positive double (2^-1074) reads as 0. *)
Definition underflows (q : Q) : bool := Qle_bool q (1 # (2 ^ 1075)).

Definition read_decimal (ip fp : string) : Q :=
let q := decimal_value ip fp in if underflows q then 0%Q else q.

Definition parseFloat (s : string) : option Q :=
let '(ip, rest) := span_digits s in
match rest with
| String "."%char r =>
    let '(fp, _) := span_digits r in
    match ip, fp with
    | EmptyString, EmptyString => None
    | _, _ => Some (read_decimal ip fp)
    end
| _ =>
    match ip with
    | EmptyString => None
    | _ => Some (read_decimal ip EmptyString)
    end
end.

(** [isNaN(x)] and the truth value of a [number | null] in a condition. *)
Definition isNaN (x : option Q) : bool :=
match x with None => true | Some _ => false end.

Definition truthy (x : option Q) : bool :=
match x with
| Some q => negb (Qeq_bool q 0)
| None => false
end.

End JS.

(** ** Data model of [src/lib/openai.ts] *)

Inductive StructureType : Set :=
| choch | bos | order_block | liquidity | poi | fib_50.

Inductive Direction : Set := bullish | bearish | neutral.

Record Coordinates : Set := { x : Q; y : Q; width : Q; height : Q }.

Record MarketStructure : Set := {
  type : StructureType;
  direction : Direction;
  priceLevel : Q;
  confidence : Q;
  coordinates : Coordinates
}.

Definition StructureType_eqb (a b : StructureType) : bool :=
match a, b with
| choch, choch | bos, bos | order_block, order_block
| liquidity, liquidity | poi, poi | fib_50, fib_50 => true
| _, _ => false
end.

(** ** [src/components/ScreenCapture.tsx] *)
Module ScreenCapture.
Import JS.

Definition is_separator (c : ascii) : bool :=
Ascii.eqb c ","%char || Ascii.eqb c "."%char.

Definition starts_with_digit (s : string) : bool :=
match s with
| String c _ => is_digit c
| EmptyString => false
end.

(** The text matched at the head of [s] by the number part of the pattern
    of [extractPrice] (one or more digits, then any number of groups made of
    an optional comma or dot and one or more digits), when [s] starts with a
    digit: digits are taken greedily, and a comma or a dot is taken only when
    a digit follows it. *)
Fixpoint number_text (s : string) : string :=
match s with
| EmptyString => EmptyString
| String c r =>
    if is_digit c then String c (number_text r)
    else if is_separator c && starts_with_digit r then String c (number_text r)
    else EmptyString
end.

(** [text.match(...)] with the global pattern "optional dollar sign, then
    number": the source reads only [matches[0]], the leftmost match; [None]
    is the [null] of no match. *)
Fixpoint first_match (text : string) : option string :=
match text with
| EmptyString => None
| String c r =>
    if is_digit c then Some (number_text text)
    else if Ascii.eqb c "$"%char && starts_with_digit r
         then Some (String c (number_text r))
    else first_match r
end.

(** [s.replace(/[$,]/g, '')] *)
Fixpoint strip_currency (s : string) : string :=
match s with
| EmptyString => EmptyString
| String c r =>
    if Ascii.eqb c "$"%char || Ascii.eqb c ","%char then strip_currency r
    else String c (strip_currency r)
end.

Definition extractPrice (text : string) : option Q :=
match first_match text with
| Some m =>
    let price := parseFloat (strip_currency m) in
    if isNaN price then None else price
| None => None
end.

Definition zero_rect : Coordinates :=
{| x := 0; y := 0; width := 0; height := 0 |}.

Definition push {A : Type} (arr : list A) (a : A) : list A := arr ++ [a].

(** The block [const price = extractPrice(line); if (price) { structures.push(...) }]
    shared by the six rules. *)
Definition push_if_price (structures : list MarketStructure) (line : string)
  (ty : StructureType) (dir : Direction) (conf : Q) : list MarketStructure :=
let price := extractPrice line in
match price with
| Some p =>
    if truthy price
    then push structures {| type := ty; direction := dir; priceLevel := p;
                            confidence := conf; coordinates := zero_rect |}
    else structures
| None => structures
end.

(** The direction expressions of the rules, as written in each rule. *)
Definition dir_choch_bos (line : string) : Direction :=
if includes line "bullish" then bullish
else if includes line "bearish" then bearish else neutral.

Definition dir_order_block (line : string) : Direction :=
if includes line "bullish" || includes line "demand" then bullish
else if includes line "bearish" || includes line "supply" then bearish
else neutral.

Definition dir_liquidity (line : string) : Direction :=
if includes line "above" then bullish
else if includes line "below" then bearish else neutral.

(** The keyword tests of the six rules. *)
Definition matches_rule (ty : StructureType) (line : string) : bool :=
match ty with
| choch => includes line "choch" || includes line "change of character"
| bos => includes line "bos" || includes line "break of structure"
| order_block => includes line "order block"
| liquidity => includes line "liquidity" || includes line "pool"
| poi => includes line "poi" || includes line "point of interest"
| fib_50 => includes line "fib" && (includes line "50" || includes line "0.5")
end.

(** Body of [for (const line of lines)]. *)
Definition loop_body (structures : list MarketStructure) (line : string)
  : list MarketStructure :=
let structures :=
  if includes line "choch" || includes line "change of character"
  then push_if_price structures line choch (dir_choch_bos line) 0.8
  else structures in
let structures :=
  if includes line "bos" || includes line "break of structure"
  then push_if_price structures line bos (dir_choch_bos line) 0.85
  else structures in
let structures :=
  if includes line "order block"
  then push_if_price structures line order_block (dir_order_block line) 0.75
  else structures in
let structures :=
  if includes line "liquidity" || includes line "pool"
  then push_if_price structures line liquidity (dir_liquidity line) 0.7
  else structures in
let structures :=
  if includes line "poi" || includes line "point of interest"
  then push_if_price structures line poi neutral 0.8
  else structures in
let structures :=
  if includes line "fib" && (includes line "50" || includes line "0.5")
  then push_if_price structures line fib_50 neutral 0.75
  else structures in
structures.

Definition extractStructuresFromAnalysis (analysisText timeframe : string)
  : list MarketStructure :=
let lines := split_newline (toLowerCase analysisText) in
fold_left loop_body lines [].

(** The structures one line adds to an empty array. *)
Definition scan_line (line : string) : list MarketStructure := loop_body [] line.

End ScreenCapture.

(** ** [src/lib/openai.ts] *)
Module OpenAIAnalyzer.

Record ChartAnalysis : Set := {
  timeframe : string;   (* [timeframe as '4h' | ...] is an unchecked cast *)
  structures : list MarketStructure;
  trendDirection : Direction;
  keyLevels : list Q;
  analysis : string
}.

Inductive SignalType : Set := buy | sell.

Record Reasoning : Set := {
  tf4h : string; tf15m : string; tf3m : string; tf1m : string
}.

Record TradingSignal : Set := {
  signalType : option SignalType;
  entryPrice : option Q;
  stopLoss : option Q;
  takeProfit : option Q;
  riskRewardRatio : option Q;
  confidence : Q;
  reasoning : Reasoning
}.

Definition parseAnalysis (content timeframe : string) : ChartAnalysis :=
{| timeframe := timeframe;
   structures := [];
   trendDirection := neutral;
   keyLevels := [];
   analysis := content |}.

Definition parseSignal (content : string) : TradingSignal :=
{| signalType := None;
   entryPrice := None;
   stopLoss := None;
   takeProfit := None;
   riskRewardRatio := None;
   confidence := 0;
   reasoning := {| tf4h := ""; tf15m := ""; tf3m := ""; tf1m := "" |} |}.

(** What a method hands back: a value, or an exception that leaves it. *)
Inductive Error : Set :=
| ErrorMessage (msg : string)   (* [throw new Error(msg)] *)
| Rejected.                     (* [fetch], [response.json()] or the access
                                   [data.choices[0].message.content] failed *)

Inductive Outcome (A : Type) : Type :=
| Returned (a : A)
| Thrown (e : Error).
Arguments Returned {A} a.
Arguments Thrown {A} e.

(** The request of each method, reduced to the arguments that vary; the
    fixed prompt text is left out. *)
Inductive Request : Set :=
| ChartRequest (imageBase64 timeframe : string)
| SignalRequest (tf4h tf15m tf3m tf1m : ChartAnalysis) (trainingRules : list string).

(** The HTTP response: [content] is [data.choices[0].message.content], and
    is [None] when reading it throws. *)
Record Response : Set := {
  ok : bool;
  statusText : string;
  content : option string
}.

Section Service.

(** The remote completion service; [None] is a rejected [fetch]. *)
Variable fetch : Request -> option Response.

Definition analyzeChart (imageBase64 timeframe : string) : Outcome ChartAnalysis :=
match fetch (ChartRequest imageBase64 timeframe) with
| None => Thrown Rejected
| Some response =>
    if negb (ok response)
    then Thrown (ErrorMessage ("OpenAI API error: " ++ statusText response))
    else match content response with
         | None => Thrown Rejected
         | Some c => Returned (parseAnalysis c timeframe)
         end
end.

Definition generateSignal (tf4h tf15m tf3m tf1m : ChartAnalysis)
  (trainingRules : list string) : Outcome TradingSignal :=
match fetch (SignalRequest tf4h tf15m tf3m tf1m trainingRules) with
| None => Thrown Rejected
| Some response =>
    if negb (ok response)
    then Thrown (ErrorMessage ("OpenAI API error: " ++ statusText response))
    else match content response with
         | None => Thrown Rejected
         | Some c => Returned (parseSignal c)
         end
end.

End Service.

End OpenAIAnalyzer.

(** ** [src/components/AlertSystem.tsx] *)
Module AlertSystem.

(** The fields of a [trading_signals] row that the component reads from
    [payload.new]. *)
Record Signal : Set := {
  id : string;
  signal_type : string;
  entry_price : Q;
  confidence_score : Q;
  alert_sent : bool
}.

Record Toast : Set := {
  toast_id : string;
  toast_type : string;
  message : string;
  price : Q;
  toast_confidence : Q
}.

(** What the component does to the outside world, in order. *)
Inductive Effect : Set :=
| PlaySound                                      (* the 800 Hz oscillator *)
| ShowToast (t : Toast)                          (* [setToasts] append *)
| ScheduleRemoveToast (toast_id : string)        (* [setTimeout(..., 10000)] *)
| SystemNotification (body tag : string).        (* [new Notification] *)

(** The two switches as one render of the component holds them.  The
    functions [showAlert] and [playAlertSound] are created anew by every
    render and read the switches of the render that created them. *)
Record Render : Set := {
  soundEnabled : bool;
  notificationsEnabled : bool
}.

(** Both switches start as [useState(true)]. *)
Definition initial_switches : Render :=
{| soundEnabled := true; notificationsEnabled := true |}.

(** The component state (the toast list and the current switches), the
    browser permission, the [alert_sent] column of the [trading_signals]
    table keyed by row id, and the trace of effects. *)
Record World : Type := {
  toasts : list Toast;
  switches : Render;
  notificationGranted : bool;  (* ['Notification' in window && permission === 'granted'] *)
  table : gmap string bool;
  trace : list Effect
}.

Definition emit (e : Effect) (w : World) : World :=
{| toasts := toasts w; switches := switches w;
   notificationGranted := notificationGranted w;
   table := table w; trace := trace w ++ [e] |}.

Definition add_toast (t : Toast) (w : World) : World :=
{| toasts := toasts w ++ [t]; switches := switches w;
   notificationGranted := notificationGranted w;
   table := table w; trace := trace w |}.

(** [update({ alert_sent: true }).eq('id', id)]: rows with that id are set,
    a missing row is not created.  The source does not await the update; the
    model applies it before the next call starts. *)
Definition update_alert_sent (row : string) (w : World) : World :=
{| toasts := toasts w; switches := switches w;
   notificationGranted := notificationGranted w;
   table := alter (fun _ => true) row (table w); trace := trace w |}.

(** [toggleSound] and [toggleNotifications], as the buttons of the current
    render call them: they change the component state only. *)
Definition toggleSound (w : World) : World :=
{| toasts := toasts w;
   switches := {| soundEnabled := negb (soundEnabled (switches w));
                  notificationsEnabled := notificationsEnabled (switches w) |};
   notificationGranted := notificationGranted w;
   table := table w; trace := trace w |}.

Definition toggleNotifications (w : World) : World :=
{| toasts := toasts w;
   switches := {| soundEnabled := soundEnabled (switches w);
                  notificationsEnabled := negb (notificationsEnabled (switches w)) |};
   notificationGranted := notificationGranted w;
   table := table w; trace := trace w |}.

(** [playAlertSound] of a render. *)
Definition playAlertSound (render : Render) (w : World) : World :=
if negb (soundEnabled render) then w else emit PlaySound w.

Section Component.

(** [n.toFixed(2)] and [s.toUpperCase()] *)
Variable toFixed2 : Q -> string.
Variable toUpperCase : string -> string.

(** [showAlert] of a render.  It returns nothing: its result is the world it
    leaves.  The toast is appended by a state update on the current list;
    the switches are those of [render]; the permission is read when it
    runs. *)
Definition showAlert (render : Render) (signal : Signal) (w : World) : World :=
let toast :=
  {| toast_id := id signal;
     toast_type := signal_type signal;
     message := toUpperCase (signal_type signal) ++ " Signal at $"
                ++ toFixed2 (entry_price signal);
     price := entry_price signal;
     toast_confidence := confidence_score signal |} in
let w :=
  if notificationsEnabled render
  then emit (ScheduleRemoveToast (toast_id toast)) (emit (ShowToast toast) (add_toast toast w))
  else w in
let w := if soundEnabled render then playAlertSound render w else w in
let w :=
  if notificationGranted w
  then emit (SystemNotification (message toast) (toast_id toast)) w
  else w in
update_alert_sent (id signal) w.

(** The callback subscribed to INSERT events on [trading_signals].  The
    effect that subscribes runs when [user] changes, not when a switch
    does, so the callback keeps calling the [showAlert] of the render in
    which the effect ran: [subscribed]. *)
Definition on_insert (subscribed : Render) (payload_new : Signal) (w : World) : World :=
let signal := payload_new in
if negb (alert_sent signal) then showAlert subscribed signal w else w.

End Component.

(** The render in which the subscribing effect runs in a world: the one of
    the current state. *)
Definition subscribe (w : World) : Render := switches w.

End AlertSystem.

(** ** The six rules of [extractStructuresFromAnalysis] as a table *)
Module Rules.
Import JS ScreenCapture.

Definition all_types : list StructureType :=
[choch; bos; order_block; liquidity; poi; fib_50].

(** The [confidence] constant written in each rule. *)
Definition rule_confidence (ty : StructureType) : Q :=
match ty with
| choch => 0.8
| bos => 0.85
| order_block => 0.75
| liquidity => 0.7
| poi => 0.8
| fib_50 => 0.75
end.

(** The [direction] expression written in each rule. *)
Definition rule_direction (ty : StructureType) (line : string) : Direction :=
match ty with
| choch | bos => dir_choch_bos line
| order_block => dir_order_block line
| liquidity => dir_liquidity line
| poi | fib_50 => neutral
end.

(** What the guarded [push] of a rule appends. *)
Definition priced (line : string) (ty : StructureType) (dir : Direction) (conf : Q)
  : list MarketStructure :=
match extractPrice line with
| Some p =>
    if truthy (Some p)
    then [{| type := ty; direction := dir; priceLevel := p;
             confidence := conf; coordinates := zero_rect |}]
    else []
| None => []
end.

Definition rule_output (ty : StructureType) (line : string) : list MarketStructure :=
if matches_rule ty line
then priced line ty (rule_direction ty line) (rule_confidence ty)
else [].

Definition has_type (ty : StructureType) (s : MarketStructure) : bool :=
StructureType_eqb (type s) ty.

Definition of_type (ty : StructureType) (l : list MarketStructure)
  : list MarketStructure := List.filter (has_type ty) l.

(** The single direction rule of the specification text, for comparison with
    [rule_direction]. *)
Definition uniform_direction (line : string) : Direction :=
if includes line "bullish" || includes line "demand" || includes line "above"
then bullish
else if includes line "bearish" || includes line "supply" || includes line "below"
then bearish
else neutral.

End Rules.

(** ** Derived views of the signal generator and of the alert component *)
Module Views.
Import OpenAIAnalyzer AlertSystem.

(** The toast built at the top of [showAlert]. *)
Definition toast_of (toFixed2 : Q -> string) (toUpperCase : string -> string)
  (signal : Signal) : Toast :=
{| toast_id := id signal;
   toast_type := signal_type signal;
   message := toUpperCase (signal_type signal) ++ " Signal at $"
              ++ toFixed2 (entry_price signal);
   price := entry_price signal;
   toast_confidence := confidence_score signal |}.

(** The effects one run of the [showAlert] of a render issues in a world, by
    the three [if] blocks. *)
Definition alert_effects (toFixed2 : Q -> string) (toUpperCase : string -> string)
  (render : Render) (w : World) (signal : Signal) : list Effect :=
let t := toast_of toFixed2 toUpperCase signal in
((if notificationsEnabled render
  then [ShowToast t; ScheduleRemoveToast (toast_id t)] else [])
 ++ (if soundEnabled render then [PlaySound] else [])
 ++ (if notificationGranted w then [SystemNotification (message t) (toast_id t)] else []))%list.

Definition is_sound (e : Effect) : bool :=
match e with PlaySound => true | _ => false end.

End Views.

(** ** Sample inputs *)
Module Samples.

Definition structure (ty : StructureType) (d : Direction) (p c : Q) : MarketStructure :=
{| type := ty; direction := d; priceLevel := p; confidence := c;
   coordinates := ScreenCapture.zero_rect |}.

Import OpenAIAnalyzer AlertSystem.

Definition sample_4h : ChartAnalysis :=
{| timeframe := "4h"; structures := [structure bos bullish 95 0.85];
   trendDirection := bullish; keyLevels := [95%Q]; analysis := "uptrend" |}.

Definition sample_15m : ChartAnalysis :=
{| timeframe := "15m"; structures := [structure choch bullish 98 0.8];
   trendDirection := bullish; keyLevels := []; analysis := "bullish choch" |}.

Definition sample_3m : ChartAnalysis :=
{| timeframe := "3m"; structures := [structure order_block bullish 100 0.75];
   trendDirection := bullish; keyLevels := []; analysis := "demand zone" |}.

Definition sample_1m : ChartAnalysis :=
{| timeframe := "1m"; structures := [structure bos bullish 102 0.9];
   trendDirection := bullish; keyLevels := []; analysis := "trigger" |}.

(** A service that answers every request with a successful response. *)
Definition service_ok (reply : string) (_ : Request) : option Response :=
Some {| ok := true; statusText := "OK"; content := Some reply |}.

Definition sample_reply : string :=
"BUY entry 102 stop 100 target 112 confidence 0.75".

Definition sample_signal : Signal :=
{| id := "sig-1"; signal_type := "buy"; entry_price := 102;
   confidence_score := 0.8; alert_sent := false |}.

Definition sample_world : World :=
{| toasts := []; switches := initial_switches;
   notificationGranted := true; table := {["sig-1" := false]}; trace := [] |}.

Definition sample_toFixed2 (_ : Q) : string := "102.00".

Definition sample_toUpperCase (s : string) : string :=
if String.eqb s "buy" then "BUY" else if String.eqb s "sell" then "SELL" else s.

(** The literal 0.00...0d with [n] zeros after the dot. *)
Fixpoint zeros (n : nat) (tail : string) : string :=
match n with
| O => tail
| S n' => String "0"%char (zeros n' tail)
end.

Definition tiny_literal (n : nat) (d : string) : string := "0." ++ zeros n d.

End Samples.

(** ** [analyzeCapture] of [src/components/ScreenCapture.tsx] *)
Module CaptureFlow.

(** The object passed to [supabase.from('market_structures').insert]. *)
Record StructureRow : Set := {
  user_id : option string;          (* [user?.id] *)
  capture_id : string;
  structure_type : StructureType;
  direction : Direction;
  price_level : Q;
  confidence : Q;
  timeframe : string;
  coordinates : Coordinates
}.

(** What [analyzeCapture] does, in order.  Console output is left out.  An
    insert is the request sent to the database: its result, which tells
    whether the database accepted the row, is not read by the source, so a
    refused insert does not interrupt the function. *)
Inductive Action : Set :=
| SetAnalysisStatus (msg : string)
| ClearStatusLater                      (* [setTimeout(() => setAnalysisStatus(''), 3000)] *)
| InsertStructure (row : StructureRow)
| CompleteCapture (captureId : string). (* [update({ analysis_status: 'completed' })] *)

Definition timeframes : list string := ["4h"; "15m"; "3m"; "1m"].

(** [!settingsData?.openai_api_key]: no row, a null key or an empty key. *)
Definition key_missing (openai_api_key : option string) : bool :=
match openai_api_key with
| None => true
| Some k => String.eqb k ""
end.

(** The content read from the body of a response,
    [data.choices[0].message.content]: a text, the JSON [null], or nothing
    when reading it throws.  The type [string] that [parseAnalysis] gives
    its parameter is not checked at run time, so a null content passes
    through [analyzeChart] into the [analysis] field of the record it
    returns. *)
Inductive Content : Set :=
| Unreadable
| NullContent
| TextContent (text : string).

Record ChartResponse : Set := {
  ok : bool;
  statusText : string;
  content : Content
}.

(** What a call of [analyzeChart] hands to [analyzeCapture]: an exception,
    or a record of which [analyzeCapture] reads the [analysis] field, a text
    or null. *)
Inductive ChartOutcome : Set :=
| ChartThrown (e : OpenAIAnalyzer.Error)
| ChartReturned (analysis : option string).

(** [extractStructuresFromAnalysis(analysis.analysis, timeframe)] as
    called by [analyzeCapture]: on null, [analysisText.toLowerCase()] throws
    ([None]). *)
Definition extract_or_throw (analysisText : option string) (tf : string)
  : option (list MarketStructure) :=
match analysisText with
| Some text => Some (ScreenCapture.extractStructuresFromAnalysis text tf)
| None => None
end.

Section Flow.

(** The completion service as reached with a given API key; [None] is a
    rejected [fetch]. *)
Variable service : string -> OpenAIAnalyzer.Request -> option ChartResponse.
Variable user : option string.

(** [analyzer.analyzeChart(imageBase64, timeframe)] with its result as it is
    at run time. *)
Definition chart_analysis (apiKey imageBase64 tf : string) : ChartOutcome :=
match service apiKey (OpenAIAnalyzer.ChartRequest imageBase64 tf) with
| None => ChartThrown OpenAIAnalyzer.Rejected
| Some response =>
    if negb (ok response)
    then ChartThrown
           (OpenAIAnalyzer.ErrorMessage ("OpenAI API error: " ++ statusText response))
    else match content response with
         | Unreadable => ChartThrown OpenAIAnalyzer.Rejected
         | NullContent => ChartReturned None
         | TextContent c =>
             ChartReturned
               (Some (OpenAIAnalyzer.analysis (OpenAIAnalyzer.parseAnalysis c tf)))
         end
end.

Definition insert_row (captureId tf : string) (structure : MarketStructure)
  : StructureRow :=
let 'Build_MarketStructure ty dir price conf xy := structure in
{| user_id := user; capture_id := captureId; structure_type := ty;
   direction := dir; price_level := price; confidence := conf;
   timeframe := tf; coordinates := xy |}.

(** The loop [for (const timeframe of timeframes)]; the flag tells whether it
    ran to its end ([true]) or was left by an exception ([false]), thrown by
    [analyzeChart] or by the extractor. *)
Fixpoint analyze_timeframes (apiKey imageBase64 captureId : string)
  (tfs : list string) : list Action * bool :=
match tfs with
| [] => ([], true)
| tf :: rest =>
    let announce := SetAnalysisStatus ("Analyzing " ++ tf ++ " timeframe...") in
    match chart_analysis apiKey imageBase64 tf with
    | ChartThrown _ => ([announce], false)
    | ChartReturned analysisText =>
        match extract_or_throw analysisText tf with
        | None => ([announce], false)
        | Some structures =>
            let '(later, finished) :=
              analyze_timeframes apiKey imageBase64 captureId rest in
            ((announce ::
                map (fun st => InsertStructure (insert_row captureId tf st)) structures)
               ++ later, finished)%list
        end
    end
end.

Definition analyzeCapture (openai_api_key : option string)
  (imageBase64 captureId : string) : list Action :=
SetAnalysisStatus "Analyzing chart..." ::
match openai_api_key with
| Some apiKey =>
    if key_missing openai_api_key
    then [SetAnalysisStatus "OpenAI API key not configured"; ClearStatusLater]
    else
      let '(acts, finished) :=
        analyze_timeframes apiKey imageBase64 captureId timeframes in
      (acts ++
       if finished
       then [CompleteCapture captureId; SetAnalysisStatus "Analysis complete!";
             ClearStatusLater]
       else [SetAnalysisStatus "Analysis failed"; ClearStatusLater])%list
| None => [SetAnalysisStatus "OpenAI API key not configured"; ClearStatusLater]
end.

(** Views of a run: the rows of its insert requests, and whether it asked
    to mark the capture completed. *)
Definition inserted (acts : list Action) : list StructureRow :=
flat_map (fun a => match a with InsertStructure r => [r] | _ => [] end) acts.

Definition completes (acts : list Action) : bool :=
existsb (fun a => match a with CompleteCapture _ => true | _ => false end) acts.

(** The text of a timeframe's chart analysis, when the call returns and its
    content is a text. *)
Definition chart_text (apiKey imageBase64 tf : string) : option string :=
match chart_analysis apiKey imageBase64 tf with
| ChartReturned (Some text) => Some text
| _ => None
end.

Definition chart_ok (apiKey imageBase64 tf : string) : bool :=
match chart_text apiKey imageBase64 tf with Some _ => true | None => false end.

(** The chart analysis of a timeframe returns, with a text or with null. *)
Definition chart_returns (apiKey imageBase64 tf : string) : bool :=
match chart_analysis apiKey imageBase64 tf with
| ChartReturned _ => true
| ChartThrown _ => false
end.

(** The rows one timeframe contributes when its chart analysis returns a
    text. *)
Definition rows_of (apiKey imageBase64 captureId tf : string) : list StructureRow :=
match chart_text apiKey imageBase64 tf with
| Some text =>
    map (insert_row captureId tf) (ScreenCapture.extractStructuresFromAnalysis text tf)
| None => []
end.

Fixpoint take_while {A : Type} (f : A -> bool) (l : list A) : list A :=
match l with
| [] => []
| a :: r => if f a then a :: take_while f r else []
end.

(** The same service as [OpenAIAnalyzer.analyzeChart] sees it, for the
    comparison of [chart_analysis] with it: a null content has no
    counterpart there and is shown as unreadable. *)
Definition typed_service (apiKey : string) (request : OpenAIAnalyzer.Request)
  : option OpenAIAnalyzer.Response :=
match service apiKey request with
| None => None
| Some response =>
    Some {| OpenAIAnalyzer.ok := ok response;
            OpenAIAnalyzer.statusText := statusText response;
            OpenAIAnalyzer.content :=
              match content response with
              | TextContent c => Some c
              | _ => None
              end |}
end.

End Flow.

End CaptureFlow.

(** ** [removeToast] of [src/components/AlertSystem.tsx] *)
Module AlertToasts.
Import AlertSystem.

Definition removeToast (i : string) (w : World) : World :=
{| toasts := List.filter (fun toast => negb (String.eqb (toast_id toast) i)) (toasts w);
   switches := switches w;
   notificationGranted := notificationGranted w;
   table := table w; trace := trace w |}.

(** A run of INSERT deliveries to the callback of one subscription, oldest
    first. *)
Definition deliver (toFixed2 : Q -> string) (toUpperCase : string -> string)
  (subscribed : Render) (payloads : list Signal) (w : World) : World :=
fold_left (fun w' payload => on_insert toFixed2 toUpperCase subscribed payload w')
          payloads w.

End AlertToasts.

(** ** The confidence bar of the market-structure list ([ChartAnalysis]
    component) *)
Module MarkerView.

Inductive BarColour : Set := bg_emerald | bg_yellow | bg_red.

(** [confidence >= 0.75 ? emerald : confidence >= 0.5 ? yellow : red] *)
Definition confidence_bar (confidence : Q) : BarColour :=
if Qle_bool 0.75 confidence then bg_emerald
else if Qle_bool 0.5 confidence then bg_yellow
else bg_red.

End MarkerView.

(** ** The status filter of the signal list ([TradingSignals] component) *)
Module TradingSignals.

Inductive Filter : Set := all | active | completed.

Definition one_of (values : list string) (v : string) : bool :=
existsb (String.eqb v) values.

(** The [.in('status', [...])] clause that [loadSignals] adds for a filter. *)
Definition status_selected (filter : Filter) (status : string) : bool :=
match filter with
| all => true
| active => one_of ["pending"; "active"] status
| completed => one_of ["triggered"; "expired"; "cancelled"] status
end.

(** [loadSignals] over the user's rows as the database orders them (newest
    first): the status clause, then [.limit(50)]. *)
Definition loadSignals {Row : Type} (status : Row -> string) (filter : Filter)
  (ordered : list Row) : list Row :=
firstn 50 (List.filter (fun r => status_selected filter (status r)) ordered).

End TradingSignals.

(** ** [handleFiles] of [src/components/TrainingUpload.tsx] *)
Module TrainingUpload.

Inductive FileStatus : Set := uploading | processing | completed | error.

Record UploadedFile : Set := {
  id : string;
  name : string;
  type : string;
  size : N;
  status : FileStatus;
  progress : N
}.

(** A browser [File]. *)
Record File : Set := { file_name : string; file_type : string; file_size : N }.

Section Upload.

Variable user : option string.
(** [storage.upload(filePath, file)]: [true] when it reports no error. *)
Variable storage_upload : string -> File -> bool.
Variable getPublicUrl : string -> string.
(** [from('training_materials').insert(...)], by file and public URL. *)
Variable db_insert : File -> string -> bool.

(** [prev.map((f) => f.id === i ? change(f) : f)] *)
Definition update_file (i : string) (change : UploadedFile -> UploadedFile)
  (prev : list UploadedFile) : list UploadedFile :=
map (fun f => if String.eqb (id f) i then change f else f) prev.

Definition with_status (st : FileStatus) (f : UploadedFile) : UploadedFile :=
{| id := id f; name := name f; type := type f; size := size f;
   status := st; progress := progress f |}.

Definition to_processing (f : UploadedFile) : UploadedFile :=
{| id := id f; name := name f; type := type f; size := size f;
   status := processing; progress := 100 |}.

(** One pass of the upload loop, for [file] and its entry [uploadFile]. *)
Definition upload_one (file : File) (uploadFile : UploadedFile)
  (files : list UploadedFile) : list UploadedFile :=
let filePath :=
  (match user with Some u => u | None => "undefined" end)
    ++ "/" ++ id uploadFile ++ "-" ++ file_name file in
if negb (storage_upload filePath file)
then update_file (id uploadFile) (with_status error) files
else
  let publicUrl := getPublicUrl filePath in
  let files := update_file (id uploadFile) to_processing files in
  match user with
  | None => update_file (id uploadFile) (with_status error) files   (* [user!.id] throws *)
  | Some _ =>
      if negb (db_insert file publicUrl)
      then update_file (id uploadFile) (with_status error) files
      else update_file (id uploadFile) (with_status completed) files
  end.

Definition new_entry (item : File * string) : UploadedFile :=
{| id := snd item; name := file_name (fst item); type := file_type (fst item);
   size := file_size (fst item); status := uploading; progress := 0 |}.

(** [handleFiles]: each file comes with the identifier [crypto.randomUUID()]
    draws for it. *)
Definition handleFiles (fileList : list (File * string)) (prev : list UploadedFile)
  : list UploadedFile :=
let newFiles := map new_entry fileList in
fold_left (fun files item => upload_one (fst item) (new_entry item) files)
          fileList (prev ++ newFiles)%list.

(** Where an entry ends, by the outcome of its two requests. *)
Definition settled (item : File * string) : UploadedFile :=
let filePath :=
  (match user with Some u => u | None => "undefined" end)
    ++ "/" ++ snd item ++ "-" ++ file_name (fst item) in
let uploaded := storage_upload filePath (fst item) in
let stored :=
  match user with
  | Some _ => db_insert (fst item) (getPublicUrl filePath)
  | None => false
  end in
{| id := snd item; name := file_name (fst item); type := file_type (fst item);
   size := file_size (fst item);
   status := if uploaded && stored then completed else error;
   progress := if uploaded then 100 else 0 |}.

Definition removeFile (i : string) (prev : list UploadedFile) : list UploadedFile :=
List.filter (fun f => negb (String.eqb (id f) i)) prev.

End Upload.

End TrainingUpload.

(** ** [loadSettings] and [saveSettings] of the [Settings] component *)
Module Settings.

(** What a number field of the form holds: a number, [NaN] (what
    [parseInt] and [parseFloat] give for an input that is not a number, such
    as a cleared field), or [null] (what loading a row with a NULL column
    puts there). *)
Inductive FieldNumber : Set :=
| Number (q : Q)
| NaN
| Null.

(** The form state. *)
Record Form : Set := {
  openaiKey : string;
  captureInterval : FieldNumber;
  confidenceThreshold : FieldNumber;
  riskRewardRatio : FieldNumber;
  alertSound : bool;
  alertToast : bool
}.

(** A row of [user_settings]; [user_id] is unique, so the table is a map
    from user id to row.  The number columns are nullable ([None] is NULL).
    The two switch columns are taken as not null: the code writes booleans
    only. *)
Record Row : Set := {
  id : string;
  openai_api_key : option string;
  capture_interval_seconds : option Q;
  min_confidence_threshold : option Q;
  risk_reward_ratio : option Q;
  alert_sound_enabled : bool;
  alert_toast_enabled : bool;
  updated_at : string
}.

Definition initial_form : Form :=
{| openaiKey := ""; captureInterval := Number 60; confidenceThreshold := Number 0.75;
   riskRewardRatio := Number 5; alertSound := true; alertToast := true |}.

(** A field as the request body carries it: [JSON.stringify] writes [NaN]
    as [null], which the database stores as NULL. *)
Definition to_column (n : FieldNumber) : option Q :=
match n with
| Number q => Some q
| NaN | Null => None
end.

(** A column as the loaded row gives it. *)
Definition from_column (c : option Q) : FieldNumber :=
match c with
| Some q => Number q
| None => Null
end.

(** [loadSettings]: the form is replaced only when the query succeeds
    ([read_ok]) and the user has a row. *)
Definition loadSettings (user : option string) (read_ok : bool)
  (t : gmap string Row) (form : Form) : Form :=
match user with
| None => form
| Some u =>
    if negb read_ok then form
    else
    match t !! u with
    | None => form
    | Some data =>
        {| openaiKey := match openai_api_key data with Some k => k | None => "" end;
           captureInterval := from_column (capture_interval_seconds data);
           confidenceThreshold := from_column (min_confidence_threshold data);
           riskRewardRatio := from_column (risk_reward_ratio data);
           alertSound := alert_sound_enabled data;
           alertToast := alert_toast_enabled data |}
    end
end.

(** [saveSettings]: update the user's row when there is one, insert a row
    otherwise; the result is the table and the message shown.  The lookup of
    the existing row is taken to succeed.  [write_ok] says whether the write
    reports no error (a failed write leaves the table as it is), [fresh_id]
    is the id the database gives an inserted row, [now] is
    [new Date().toISOString()], [message] is the message shown before. *)
Definition saveSettings (user : option string) (write_ok : bool)
  (fresh_id now : string) (form : Form) (message : string) (t : gmap string Row)
  : gmap string Row * string :=
match user with
| None => (t, message)
| Some u =>
    let settingsData (row_id : string) :=
      {| id := row_id;
         openai_api_key := Some (openaiKey form);
         capture_interval_seconds := to_column (captureInterval form);
         min_confidence_threshold := to_column (confidenceThreshold form);
         risk_reward_ratio := to_column (riskRewardRatio form);
         alert_sound_enabled := alertSound form;
         alert_toast_enabled := alertToast form;
         updated_at := now |} in
    match t !! u with
    | Some existing =>
        if write_ok
        then (<[u := settingsData (id existing)]> t, "Settings saved successfully")
        else (t, "Error saving settings")
    | None =>
        if write_ok
        then (<[u := settingsData fresh_id]> t, "Settings saved successfully")
        else (t, "Error saving settings")
    end
end.

(** The key [analyzeCapture] reads for a user: [settingsData?.openai_api_key]. *)
Definition stored_key (user : option string) (t : gmap string Row) : option string :=
match user with
| None => None
| Some u => match t !! u with Some data => openai_api_key data | None => None end
end.

End Settings.

(** ** Sample services and inputs for the capture flow *)
Module CaptureSamples.

(** Answers every chart request except the 3m one, which gets a 429. *)
Definition flaky_service (_ : string) (request : OpenAIAnalyzer.Request)
  : option CaptureFlow.ChartResponse :=
match request with
| OpenAIAnalyzer.ChartRequest _ tf =>
    if String.eqb tf "3m"
    then Some {| CaptureFlow.ok := false;
                 CaptureFlow.statusText := "Too Many Requests";
                 CaptureFlow.content := CaptureFlow.Unreadable |}
    else Some {| CaptureFlow.ok := true; CaptureFlow.statusText := "OK";
                 CaptureFlow.content :=
                   CaptureFlow.TextContent ("BOS bullish above 1,905.5 on " ++ tf) |}
| _ => None
end.

(** Answers every chart request. *)
Definition steady_service (_ : string) (request : OpenAIAnalyzer.Request)
  : option CaptureFlow.ChartResponse :=
match request with
| OpenAIAnalyzer.ChartRequest _ tf =>
    Some {| CaptureFlow.ok := true; CaptureFlow.statusText := "OK";
            CaptureFlow.content := CaptureFlow.TextContent "Order block (demand) at 99.5" |}
| _ => None
end.

(** Answers every chart request with an ok response; the content of the 15m
    one is null. *)
Definition null_service (_ : string) (request : OpenAIAnalyzer.Request)
  : option CaptureFlow.ChartResponse :=
match request with
| OpenAIAnalyzer.ChartRequest _ tf =>
    Some {| CaptureFlow.ok := true; CaptureFlow.statusText := "OK";
            CaptureFlow.content :=
              if String.eqb tf "15m" then CaptureFlow.NullContent
              else CaptureFlow.TextContent "Liquidity above 2,010" |}
| _ => None
end.

Definition sample_form : Settings.Form :=
{| Settings.openaiKey := "sk-test"; Settings.captureInterval := Settings.Number 30;
   Settings.confidenceThreshold := Settings.Number 0.8;
   Settings.riskRewardRatio := Settings.Number 3;
   Settings.alertSound := false; Settings.alertToast := true |}.

(** The form after the capture-interval input was cleared. *)
Definition cleared_form : Settings.Form :=
{| Settings.openaiKey := "sk-test"; Settings.captureInterval := Settings.NaN;
   Settings.confidenceThreshold := Settings.Number 0.8;
   Settings.riskRewardRatio := Settings.Number 3;
   Settings.alertSound := false; Settings.alertToast := true |}.

Definition sample_files : list (TrainingUpload.File * string) :=
[({| TrainingUpload.file_name := "plan.pdf";
     TrainingUpload.file_type := "application/pdf";
     TrainingUpload.file_size := 2048 |}, "id-1");
 ({| TrainingUpload.file_name := "setup.mp4";
     TrainingUpload.file_type := "video/mp4";
     TrainingUpload.file_size := 900000 |}, "id-2");
 ({| TrainingUpload.file_name := "chart.png";
     TrainingUpload.file_type := "image/png";
     TrainingUpload.file_size := 51200 |}, "id-3")].

(** The storage refuses the video; the database accepts every row. *)
Definition sample_upload (_ : string) (file : TrainingUpload.File) : bool :=
negb (String.eqb (TrainingUpload.file_type file) "video/mp4").

End CaptureSamples.

(** ** Text predicates used to state properties *)
Module TextViews.

(** Some character of the string is a decimal digit. *)
Fixpoint has_digit (s : string) : bool :=
match s with
| EmptyString => false
| String c r => JS.is_digit c || has_digit r
end.

(** A text with its letters a-z replaced by A-Z: a change of case that
    stays within the modelled strings. *)
Definition capital (c : ascii) : ascii :=
let n := N_of_ascii c in
if (97 <=? n)%N && (n <=? 122)%N then ascii_of_N (n - 32) else c.

Definition capitalised (s : string) : string := JS.map_chars capital s.

End TextViews.

(** * Properties *)

Import JS ScreenCapture Rules Views.

(** ** Characters and case *)

Lemma lower_char_facts (c : ascii) :
  is_digit (lower_char c) = is_digit c /\
  is_separator (lower_char c) = is_separator c /\
  Ascii.eqb (lower_char c) "$"%char = Ascii.eqb c "$"%char /\
  Ascii.eqb (lower_char c) newline = Ascii.eqb c newline /\
  (is_digit c || is_separator c || Ascii.eqb c "$"%char = true -> lower_char c = c).
Proof.
  destruct c as [[] [] [] [] [] [] [] []]; vm_compute; repeat split; congruence.
Qed.

Lemma startsWith_toLowerCase (s p : string) :
  startsWith s p = true -> startsWith (toLowerCase s) (toLowerCase p) = true.
Proof.
  revert s; induction p as [|a p IH]; intros s H; [now destruct s|].
  destruct s as [|b s]; simpl in *; [discriminate|].
  apply andb_true_iff in H as [Hab Hs].
  apply Ascii.eqb_eq in Hab; subst b.
  rewrite Ascii.eqb_refl; simpl. now apply IH.
Qed.

Lemma includes_toLowerCase (s p : string) :
  includes s p = true -> includes (toLowerCase s) (toLowerCase p) = true.
Proof.
  induction s as [|b s IH]; intros H.
  - simpl in *. now apply (startsWith_toLowerCase EmptyString p).
  - cbn [includes] in H. apply orb_true_iff in H as [H|H].
    + apply (startsWith_toLowerCase (String b s) p) in H.
      unfold toLowerCase in *. cbn [map_chars includes] in *.
      apply orb_true_iff. now left.
    + unfold toLowerCase in *. cbn [map_chars includes].
      apply orb_true_iff. right. now apply IH.
Qed.

Lemma split_newline_nonempty (s : string) : split_newline s <> [].
Proof.
  induction s as [|c s IH]; simpl; [discriminate|].
  destruct (Ascii.eqb c newline); [discriminate|].
  destruct (split_newline s); [contradiction|discriminate].
Qed.

Lemma split_newline_toLowerCase (s : string) :
  split_newline (toLowerCase s) = map toLowerCase (split_newline s).
Proof.
  induction s as [|c s IH]; [reflexivity|].
  unfold toLowerCase in *. cbn [map_chars split_newline].
  destruct (lower_char_facts c) as (_ & _ & _ & Hnl & _). rewrite Hnl.
  destruct (Ascii.eqb c newline); cbn [map]; rewrite IH; [reflexivity|].
  destruct (split_newline s); reflexivity.
Qed.

Lemma starts_with_digit_toLowerCase (s : string) :
  starts_with_digit (toLowerCase s) = starts_with_digit s.
Proof.
  destruct s as [|c s]; [reflexivity|]. simpl.
  now destruct (lower_char_facts c) as (-> & _).
Qed.

Lemma number_text_toLowerCase (s : string) :
  number_text (toLowerCase s) = number_text s.
Proof.
  induction s as [|c s IH]; [reflexivity|].
  unfold toLowerCase in *. cbn [map_chars number_text].
  pose proof (starts_with_digit_toLowerCase s) as Hd. unfold toLowerCase in Hd.
  destruct (lower_char_facts c) as (-> & -> & _ & _ & Hid). rewrite Hd, IH.
  destruct (is_digit c) eqn:Ed.
  - now rewrite Hid.
  - destruct (is_separator c) eqn:Es; [|reflexivity].
    destruct (starts_with_digit s); [|reflexivity]. now rewrite Hid.
Qed.

Lemma first_match_toLowerCase (s : string) :
  first_match (toLowerCase s) = first_match s.
Proof.
  induction s as [|c s IH]; [reflexivity|].
  pose proof (number_text_toLowerCase (String c s)) as Hn.
  pose proof (number_text_toLowerCase s) as Hs.
  pose proof (starts_with_digit_toLowerCase s) as Hd.
  unfold toLowerCase in *. cbn [map_chars first_match] in *.
  destruct (lower_char_facts c) as (Hdig & _ & Hdol & _ & Hid).
  rewrite Hdig, Hdol, Hd, Hs, IH.
  destruct (is_digit c) eqn:Ed.
  - now rewrite Hn.
  - destruct (Ascii.eqb c "$"%char) eqn:E; [|reflexivity].
    destruct (starts_with_digit s); [|reflexivity].
    rewrite Hid; [reflexivity|]. apply orb_true_r.
Qed.

(** Lower-casing a line does not change the price read from it. *)
Lemma extractPrice_toLowerCase (s : string) :
  extractPrice (toLowerCase s) = extractPrice s.
Proof. unfold extractPrice. now rewrite first_match_toLowerCase. Qed.

(** ** Reading a price *)

Lemma span_digits_head (c : ascii) (r : string) :
  is_digit c = true ->
  exists d rest, span_digits (String c r) = (String c d, rest).
Proof.
  intros Hc. cbn [span_digits]. rewrite Hc.
  destruct (span_digits r) as [d rest]. now exists d, rest.
Qed.

Lemma parseFloat_digit_head (c : ascii) (r : string) :
  is_digit c = true -> isNaN (parseFloat (String c r)) = false.
Proof.
  intros Hc. unfold parseFloat.
  destruct (span_digits_head c r Hc) as (d & rest & ->).
  destruct rest as [|c' r']; [reflexivity|].
  destruct (Ascii.eqb_spec c' "."%char) as [->|Hne].
  - now destruct (span_digits r').
  - destruct c' as [[] [] [] [] [] [] [] []]; try reflexivity. now elim Hne.
Qed.

Lemma strip_currency_digit_head (c : ascii) (r : string) :
  is_digit c = true ->
  strip_currency (String c r) = String c (strip_currency r).
Proof.
  intros Hc. cbn [strip_currency].
  destruct c as [[] [] [] [] [] [] [] []]; try discriminate Hc; reflexivity.
Qed.

Lemma number_text_digit_head (c : ascii) (r : string) :
  is_digit c = true -> number_text (String c r) = String c (number_text r).
Proof. intros Hc. cbn [number_text]. now rewrite Hc. Qed.

(** The [isNaN] branch of [extractPrice] is never taken: every match starts,
    after the optional dollar sign, with a digit. *)
Lemma extractPrice_of_match (text m : string) :
  first_match text = Some m ->
  extractPrice text = parseFloat (strip_currency m) /\
  isNaN (parseFloat (strip_currency m)) = false.
Proof.
  intros Hm.
  assert (Hnan : isNaN (parseFloat (strip_currency m)) = false).
  { clear -Hm. induction text as [|c r IH]; [discriminate|].
    cbn [first_match] in Hm. destruct (is_digit c) eqn:Hc.
    - injection Hm as <-. cbn [number_text]. rewrite Hc.
      rewrite (strip_currency_digit_head c _ Hc).
      now apply parseFloat_digit_head.
    - destruct (Ascii.eqb c "$"%char && starts_with_digit r) eqn:Hd; [|now apply IH].
      injection Hm as <-. apply andb_true_iff in Hd as [Hdol Hdig].
      apply Ascii.eqb_eq in Hdol; subst c.
      destruct r as [|c' r']; [discriminate|]. cbn [starts_with_digit] in Hdig.
      cbn [number_text]. rewrite Hdig.
      change (strip_currency (String "$"%char (String c' (number_text r'))))
        with (strip_currency (String c' (number_text r'))).
      rewrite (strip_currency_digit_head c' _ Hdig).
      now apply parseFloat_digit_head. }
  split; [|exact Hnan].
  unfold extractPrice. rewrite Hm. cbn zeta. now rewrite Hnan.
Qed.

Lemma extractPrice_none (text : string) :
  extractPrice text = None <-> first_match text = None.
Proof.
  split.
  - intros H. destruct (first_match text) as [m|] eqn:Hm; [|reflexivity].
    destruct (extractPrice_of_match text m Hm) as (He & Hn).
    rewrite H in He. rewrite <- He in Hn. discriminate.
  - intros H. unfold extractPrice. now rewrite H.
Qed.

Example extractPrice_thousands :
  extractPrice "entry near $1,984.25 (prev. 1,990)" = Some 1984.25%Q.
Proof. vm_compute; reflexivity. Qed.

Example extractPrice_second_dot :
  extractPrice "level 1.2.3" = Some 1.2%Q.
Proof. vm_compute; reflexivity. Qed.

Example extractPrice_timeframe_digit :
  extractPrice "3m order block at 100" = Some 3%Q.
Proof. vm_compute; reflexivity. Qed.

Example extractPrice_no_number : extractPrice "no level given, $ only" = None.
Proof. vm_compute; reflexivity. Qed.

(** 2e-324 is nearer to 0 than to the least positive double and reads as 0;
    3e-324 does not. *)
Example extractPrice_underflow :
  extractPrice (Samples.tiny_literal 323 "2") = Some 0%Q /\
  truthy (extractPrice (Samples.tiny_literal 323 "3")) = true.
Proof. split; vm_compute; reflexivity. Qed.

(** ** The loop *)

Lemma push_if_price_priced acc line ty dir conf :
  push_if_price acc line ty dir conf = (acc ++ priced line ty dir conf)%list.
Proof.
  unfold push_if_price, priced, push.
  destruct (extractPrice line) as [p|]; [|now rewrite app_nil_r].
  destruct (truthy (Some p)); [reflexivity|now rewrite app_nil_r].
Qed.

Lemma loop_body_rules acc line :
  loop_body acc line =
  (acc ++ rule_output choch line ++ rule_output bos line
       ++ rule_output order_block line ++ rule_output liquidity line
       ++ rule_output poi line ++ rule_output fib_50 line)%list.
Proof.
  unfold loop_body, rule_output, matches_rule, rule_direction, rule_confidence.
  repeat match goal with
         | |- context [if ?b then push_if_price _ _ _ _ _ else _] => destruct b
         end;
    rewrite ?push_if_price_priced, ?app_nil_r, <- ?app_assoc; cbn [app];
    rewrite ?app_nil_r; reflexivity.
Qed.

Lemma scan_line_rules line :
  scan_line line = flat_map (fun ty => rule_output ty line) all_types.
Proof.
  unfold scan_line. rewrite loop_body_rules. cbn [flat_map all_types app].
  now rewrite app_nil_r.
Qed.

Lemma loop_body_scan_line acc line :
  loop_body acc line = (acc ++ scan_line line)%list.
Proof. unfold scan_line. now rewrite !loop_body_rules. Qed.

Lemma fold_loop_body lines acc :
  fold_left loop_body lines acc = (acc ++ flat_map scan_line lines)%list.
Proof.
  revert acc; induction lines as [|l ls IH]; intros acc; cbn [fold_left flat_map].
  - now rewrite app_nil_r.
  - now rewrite IH, loop_body_scan_line, <- app_assoc.
Qed.

(** The array returned is the concatenation, line after line, of what each
    line adds. *)
Lemma extractStructures_flat_map text tf :
  extractStructuresFromAnalysis text tf =
  flat_map scan_line (split_newline (toLowerCase text)).
Proof. unfold extractStructuresFromAnalysis. now rewrite fold_loop_body. Qed.

Lemma priced_length line ty dir conf : length (priced line ty dir conf) <= 1.
Proof.
  unfold priced. destruct (extractPrice line) as [p|]; [|simpl; lia].
  destruct (truthy (Some p)); simpl; lia.
Qed.

Lemma rule_output_length ty line : length (rule_output ty line) <= 1.
Proof.
  unfold rule_output. destruct (matches_rule ty line); [apply priced_length|simpl; lia].
Qed.

Lemma rule_output_type ty line s :
  In s (rule_output ty line) -> type s = ty.
Proof.
  unfold rule_output, priced. destruct (matches_rule ty line); [|intros []].
  destruct (extractPrice line) as [p|]; [|intros []].
  destruct (truthy (Some p)); [|intros []].
  intros [<-|[]]. reflexivity.
Qed.

Lemma rule_output_priced ty line p :
  matches_rule ty line = true -> extractPrice line = Some p ->
  Qeq_bool p 0 = false ->
  rule_output ty line =
  [{| type := ty; direction := rule_direction ty line; priceLevel := p;
      confidence := rule_confidence ty; coordinates := zero_rect |}].
Proof.
  intros Hm Hp Hz. unfold rule_output, priced. rewrite Hm, Hp.
  unfold truthy. now rewrite Hz.
Qed.

Lemma rule_output_unmatched ty line :
  matches_rule ty line = false -> rule_output ty line = [].
Proof. intros Hm. unfold rule_output. now rewrite Hm. Qed.

Lemma rule_output_zero ty line p :
  extractPrice line = Some p -> Qeq_bool p 0 = true -> rule_output ty line = [].
Proof.
  intros Hp Hz. unfold rule_output, priced. rewrite Hp. unfold truthy. rewrite Hz.
  now destruct (matches_rule ty line).
Qed.

Lemma of_type_rule_output ty ty' line :
  of_type ty (rule_output ty' line) =
  if StructureType_eqb ty' ty then rule_output ty' line else [].
Proof.
  unfold of_type, rule_output, priced.
  destruct (matches_rule ty' line); [|now destruct (StructureType_eqb ty' ty)].
  destruct (extractPrice line) as [p|]; [|now destruct (StructureType_eqb ty' ty)].
  destruct (truthy (Some p)); [|now destruct (StructureType_eqb ty' ty)].
  cbn. unfold has_type. cbn. now destruct (StructureType_eqb ty' ty).
Qed.

Lemma of_type_app ty (a b : list MarketStructure) :
  of_type ty (a ++ b)%list = (of_type ty a ++ of_type ty b)%list.
Proof. apply List.filter_app. Qed.

(** The structures of one category that a line adds are the output of that
    category's rule. *)
Lemma of_type_scan_line ty line :
  of_type ty (scan_line line) = rule_output ty line.
Proof.
  rewrite scan_line_rules. cbn [flat_map all_types].
  rewrite !of_type_app, !of_type_rule_output.
  destruct ty; cbn; rewrite ?app_nil_r; reflexivity.
Qed.

Lemma rule_output_In ty line s :
  In s (rule_output ty line) ->
  matches_rule ty line = true /\
  exists p, extractPrice line = Some p /\ Qeq_bool p 0 = false /\
    s = {| type := ty; direction := rule_direction ty line; priceLevel := p;
           confidence := rule_confidence ty; coordinates := zero_rect |}.
Proof.
  unfold rule_output, priced. destruct (matches_rule ty line); [|intros []].
  destruct (extractPrice line) as [p|]; [|intros []].
  unfold truthy. destruct (Qeq_bool p 0) eqn:Hz; cbn [negb]; [intros []|].
  intros [<-|[]]. split; [reflexivity|]. now exists p.
Qed.

Lemma rule_output_cases ty line p :
  extractPrice line = Some p -> Qeq_bool p 0 = false ->
  rule_output ty line =
  if matches_rule ty line
  then [{| type := ty; direction := rule_direction ty line; priceLevel := p;
           confidence := rule_confidence ty; coordinates := zero_rect |}]
  else [].
Proof.
  intros Hp Hz. destruct (matches_rule ty line) eqn:Hm.
  - now apply rule_output_priced.
  - now apply rule_output_unmatched.
Qed.

Lemma scan_line_length line : length (scan_line line) <= 6.
Proof.
  rewrite scan_line_rules. cbn [flat_map all_types]. rewrite !length_app.
  pose proof (rule_output_length choch line).
  pose proof (rule_output_length bos line).
  pose proof (rule_output_length order_block line).
  pose proof (rule_output_length liquidity line).
  pose proof (rule_output_length poi line).
  pose proof (rule_output_length fib_50 line).
  simpl. lia.
Qed.

Lemma scan_line_unmatched line :
  (forall ty, matches_rule ty line = false) -> scan_line line = [].
Proof.
  intros H. rewrite scan_line_rules. cbn [flat_map all_types].
  now rewrite !rule_output_unmatched by apply H.
Qed.

(** ** Claims about the structure extractor *)

(** C4, as stated, fails: a point-of-interest line that says "bullish" gets
    direction neutral, and a liquidity line that says "bullish" (without
    "above") gets neutral too, where the single rule of the claim gives
    bullish. *)
Lemma C4_counterexample :
  extractStructuresFromAnalysis "POI bullish at 100" "15m" =
    [{| type := poi; direction := neutral; priceLevel := 100;
        confidence := 0.8; coordinates := zero_rect |}] /\
  uniform_direction "poi bullish at 100" = bullish /\
  extractStructuresFromAnalysis "Liquidity resting, bullish, 250" "15m" =
    [{| type := liquidity; direction := neutral; priceLevel := 250;
        confidence := 0.7; coordinates := zero_rect |}] /\
  uniform_direction "liquidity resting, bullish, 250" = bullish.
Proof. repeat split; vm_compute; reflexivity. Qed.

(** C4, amended: every structure the extractor emits comes from a line of the
    lower-cased text that matches the keyword test of the structure's
    category and carries the price read from that line; its direction is
    given by the direction expression of that category alone
    ([rule_direction]): "bullish"/"bearish" for choch and bos, these or
    "demand"/"supply" for order_block, "above"/"below" for liquidity, and
    always neutral for poi and fib_50. *)
Theorem C4_direction_per_rule (text tf : string) (s : MarketStructure) :
  In s (extractStructuresFromAnalysis text tf) ->
  exists line,
    In line (split_newline (toLowerCase text)) /\
    matches_rule (type s) line = true /\
    extractPrice line = Some (priceLevel s) /\
    direction s = rule_direction (type s) line /\
    direction s =
      match type s with
      | choch | bos =>
          if includes line "bullish" then bullish
          else if includes line "bearish" then bearish else neutral
      | order_block =>
          if includes line "bullish" || includes line "demand" then bullish
          else if includes line "bearish" || includes line "supply" then bearish
          else neutral
      | liquidity =>
          if includes line "above" then bullish
          else if includes line "below" then bearish else neutral
      | poi | fib_50 => neutral
      end.
Proof.
  rewrite extractStructures_flat_map. intros Hs.
  apply in_flat_map in Hs as (line & Hline & Hs).
  rewrite scan_line_rules in Hs. apply in_flat_map in Hs as (ty & _ & Hs).
  apply rule_output_In in Hs as (Hm & p & Hp & _ & ->). cbn.
  exists line. repeat split; try assumption; now destruct ty.
Qed.

Lemma C4_direction_per_rule_witness :
  In {| type := order_block; direction := bullish; priceLevel := 1250.5;
        confidence := 0.75; coordinates := zero_rect |}
     (extractStructuresFromAnalysis "Order Block (demand zone) at $1,250.5" "3m") /\
  exists line,
    In line (split_newline (toLowerCase "Order Block (demand zone) at $1,250.5")) /\
    matches_rule order_block line = true /\
    extractPrice line = Some 1250.5%Q /\
    bullish = rule_direction order_block line.
Proof.
  assert (H : In {| type := order_block; direction := bullish; priceLevel := 1250.5;
                    confidence := 0.75; coordinates := zero_rect |}
                 (extractStructuresFromAnalysis
                    "Order Block (demand zone) at $1,250.5" "3m"))
    by (vm_compute; left; reflexivity).
  split; [exact H|].
  destruct (C4_direction_per_rule _ _ _ H) as (line & H1 & H2 & H3 & H4 & _).
  exists line. repeat split; assumption.
Defined.

(** C6, as stated, fails when the price read from the line is 0: the number
    is extracted, but the guard [if (price)] drops the structure. *)
Lemma C6_counterexample :
  In "BOS bullish retest of 0" (split_newline "BOS bullish retest of 0") /\
  includes "BOS bullish retest of 0" "BOS" = true /\
  includes "BOS bullish retest of 0" "bullish" = true /\
  extractPrice "BOS bullish retest of 0" = Some 0%Q /\
  extractStructuresFromAnalysis "BOS bullish retest of 0" "1m" = [].
Proof. repeat split; vm_compute; auto. Qed.

(** C6, amended: for every line of the analysis text that contains "BOS" and
    (in any case) "bullish" and from which a price other than 0 is read, the
    lower-cased line is scanned by the extractor and adds exactly one bos
    structure, with direction bullish, that price, and confidence 0.85. *)
Theorem C6_bos_bullish (text tf line : string) (p : Q) :
  In line (split_newline text) ->
  includes line "BOS" = true ->
  includes (toLowerCase line) "bullish" = true ->
  extractPrice line = Some p ->
  Qeq_bool p 0 = false ->
  In (toLowerCase line) (split_newline (toLowerCase text)) /\
  extractStructuresFromAnalysis text tf =
    flat_map scan_line (split_newline (toLowerCase text)) /\
  of_type bos (scan_line (toLowerCase line)) =
    [{| type := bos; direction := bullish; priceLevel := p;
        confidence := 0.85; coordinates := zero_rect |}].
Proof.
  intros Hin Hbos Hbull Hp Hz. split; [|split].
  - rewrite split_newline_toLowerCase. now apply in_map.
  - apply extractStructures_flat_map.
  - rewrite of_type_scan_line.
    assert (Hm : matches_rule bos (toLowerCase line) = true).
    { cbn [matches_rule]. apply includes_toLowerCase in Hbos.
      change (toLowerCase "BOS") with "bos" in Hbos. now rewrite Hbos. }
    rewrite <- extractPrice_toLowerCase in Hp.
    rewrite (rule_output_priced _ _ _ Hm Hp Hz).
    cbn [rule_direction rule_confidence]. unfold dir_choch_bos. now rewrite Hbull.
Qed.

Lemma C6_bos_bullish_witness :
  extractStructuresFromAnalysis
    "Trend is up.
BOS confirmed above $1,984.25 - Bullish continuation" "15m" =
    flat_map scan_line
      (split_newline (toLowerCase
    "Trend is up.
BOS confirmed above $1,984.25 - Bullish continuation")) /\
  of_type bos (scan_line (toLowerCase "BOS confirmed above $1,984.25 - Bullish continuation")) =
    [{| type := bos; direction := bullish; priceLevel := 1984.25;
        confidence := 0.85; coordinates := zero_rect |}].
Proof.
  assert (H1 : In "BOS confirmed above $1,984.25 - Bullish continuation"
                 (split_newline "Trend is up.
BOS confirmed above $1,984.25 - Bullish continuation"))
    by (vm_compute; right; left; reflexivity).
  assert (H2 : includes "BOS confirmed above $1,984.25 - Bullish continuation" "BOS" = true)
    by (vm_compute; reflexivity).
  assert (H3 : includes (toLowerCase "BOS confirmed above $1,984.25 - Bullish continuation")
                 "bullish" = true)
    by (vm_compute; reflexivity).
  assert (H4 : extractPrice "BOS confirmed above $1,984.25 - Bullish continuation"
               = Some 1984.25%Q)
    by (vm_compute; reflexivity).
  assert (H5 : Qeq_bool 1984.25 0 = false) by (vm_compute; reflexivity).
  destruct (C6_bos_bullish _ "15m" _ _ H1 H2 H3 H4 H5) as (_ & Ha & Hb).
  split; [exact Ha|exact Hb].
Defined.

(** C8: on every input string the extractor is a total function (the loop
    runs once per line of the lower-cased text and returns an array of at
    most six structures per line; no operation in it can throw), and when no
    line matches the keyword test of any of the six rules the array returned
    is empty. *)
Theorem C8_total_and_empty (text tf : string) :
  (exists result,
     extractStructuresFromAnalysis text tf = result /\
     fold_left loop_body (split_newline (toLowerCase text)) [] = result /\
     length result <= 6 * length (split_newline (toLowerCase text))) /\
  ((forall line ty,
      In line (split_newline (toLowerCase text)) -> matches_rule ty line = false) ->
   extractStructuresFromAnalysis text tf = []).
Proof.
  split.
  - exists (extractStructuresFromAnalysis text tf). split; [reflexivity|].
    split; [reflexivity|]. rewrite extractStructures_flat_map.
    induction (split_newline (toLowerCase text)) as [|l ls IH]; [simpl; lia|].
    cbn [flat_map length]. rewrite length_app.
    pose proof (scan_line_length l). lia.
  - intros H. rewrite extractStructures_flat_map.
    induction (split_newline (toLowerCase text)) as [|l ls IH]; [reflexivity|].
    cbn [flat_map]. rewrite scan_line_unmatched.
    + apply IH. intros line ty Hl. apply H. now right.
    + intros ty. apply H. now left.
Qed.

Lemma C8_total_and_empty_witness :
  (forall line ty,
      In line (split_newline (toLowerCase "Price is ranging near 101.5
No clear setup.")) -> matches_rule ty line = false) /\
  extractStructuresFromAnalysis "Price is ranging near 101.5
No clear setup." "4h" = [].
Proof.
  assert (H : forall line ty,
      In line (split_newline (toLowerCase "Price is ranging near 101.5
No clear setup.")) -> matches_rule ty line = false).
  { intros line ty Hin. vm_compute in Hin.
    destruct Hin as [<-|[<-|[]]]; destruct ty; vm_compute; reflexivity. }
  split; [exact H|].
  exact (proj2 (C8_total_and_empty _ "4h") H).
Defined.

(** C9, as stated, fails in two ways: a line whose extracted price is 0 adds
    nothing, and a line that mentions "order block" and "liquidity" adds more
    than two structures when it matches a further category. *)
Lemma C9_counterexample :
  (extractPrice "order block over liquidity at 0" = Some 0%Q /\
   includes "order block over liquidity at 0" "order block" = true /\
   includes "order block over liquidity at 0" "liquidity" = true /\
   scan_line "order block over liquidity at 0" = []) /\
  (extractPrice "bos into order block, liquidity at 1900" = Some 1900%Q /\
   includes "bos into order block, liquidity at 1900" "order block" = true /\
   includes "bos into order block, liquidity at 1900" "liquidity" = true /\
   length (scan_line "bos into order block, liquidity at 1900") = 3).
Proof. repeat split; vm_compute; reflexivity. Qed.

(** What a line whose price is not 0 adds, category by category. *)
Lemma scan_line_by_category (line : string) (p : Q) :
  extractPrice line = Some p ->
  Qeq_bool p 0 = false ->
  (forall ty, length (of_type ty (scan_line line)) <= 1) /\
  (forall ty,
     of_type ty (scan_line line) =
     if matches_rule ty line
     then [{| type := ty; direction := rule_direction ty line; priceLevel := p;
              confidence := rule_confidence ty; coordinates := zero_rect |}]
     else []) /\
  length (scan_line line) =
    length (List.filter (fun ty => matches_rule ty line) all_types) /\
  (includes line "order block" = true -> includes line "liquidity" = true ->
   2 <= length (scan_line line) /\
   (matches_rule choch line = false -> matches_rule bos line = false ->
    matches_rule poi line = false -> matches_rule fib_50 line = false ->
    exists d1 d2,
      scan_line line =
      [{| type := order_block; direction := d1; priceLevel := p;
          confidence := 0.75; coordinates := zero_rect |};
       {| type := liquidity; direction := d2; priceLevel := p;
          confidence := 0.7; coordinates := zero_rect |}])).
Proof.
  intros Hp Hz.
  assert (Hlen : length (scan_line line) =
                 length (List.filter (fun ty => matches_rule ty line) all_types)).
  { rewrite scan_line_rules. cbn [flat_map all_types List.filter].
    rewrite !(rule_output_cases _ _ _ Hp Hz).
    destruct (matches_rule choch line), (matches_rule bos line),
      (matches_rule order_block line), (matches_rule liquidity line),
      (matches_rule poi line), (matches_rule fib_50 line); reflexivity. }
  split; [|split; [|split; [exact Hlen|]]].
  - intros ty. rewrite of_type_scan_line. apply rule_output_length.
  - intros ty. rewrite of_type_scan_line. now apply rule_output_cases.
  - intros Hob Hliq.
    assert (Hm1 : matches_rule order_block line = true) by exact Hob.
    assert (Hm2 : matches_rule liquidity line = true)
      by (cbn [matches_rule]; now rewrite Hliq).
    split.
    + rewrite Hlen. cbn [all_types List.filter]. rewrite Hm1, Hm2.
      destruct (matches_rule choch line), (matches_rule bos line),
        (matches_rule poi line), (matches_rule fib_50 line); simpl; lia.
    + intros H1 H2 H3 H4.
      exists (rule_direction order_block line), (rule_direction liquidity line).
      rewrite scan_line_rules. cbn [flat_map all_types].
      rewrite !(rule_output_cases _ _ _ Hp Hz), H1, H2, H3, H4, Hm1, Hm2.
      reflexivity.
Qed.

(** C9, amended: every line adds at most one structure per rule category;
    when the price read from the line is not 0 it adds exactly one structure
    for each category whose keyword test it matches and none for the others,
    so a line mentioning both "order block" and "liquidity" adds at least
    two structures, and exactly two when it matches no other category. *)
Theorem C9_one_per_matched_category (line : string) :
  (forall ty, length (of_type ty (scan_line line)) <= 1) /\
  (forall p : Q,
  extractPrice line = Some p ->
  Qeq_bool p 0 = false ->
  (forall ty,
     of_type ty (scan_line line) =
     if matches_rule ty line
     then [{| type := ty; direction := rule_direction ty line; priceLevel := p;
              confidence := rule_confidence ty; coordinates := zero_rect |}]
     else []) /\
  length (scan_line line) =
    length (List.filter (fun ty => matches_rule ty line) all_types) /\
  (includes line "order block" = true -> includes line "liquidity" = true ->
   2 <= length (scan_line line) /\
   (matches_rule choch line = false -> matches_rule bos line = false ->
    matches_rule poi line = false -> matches_rule fib_50 line = false ->
    exists d1 d2,
      scan_line line =
      [{| type := order_block; direction := d1; priceLevel := p;
          confidence := 0.75; coordinates := zero_rect |};
       {| type := liquidity; direction := d2; priceLevel := p;
          confidence := 0.7; coordinates := zero_rect |}]))).
Proof.
  split.
  - intros ty. rewrite of_type_scan_line. apply rule_output_length.
  - intros p Hp Hz. now destruct (scan_line_by_category line p Hp Hz) as (_ & H).
Qed.

Lemma C9_one_per_matched_category_witness :
  extractPrice "bullish order block below liquidity pool at 1,900" = Some 1900%Q /\
  scan_line "bullish order block below liquidity pool at 1,900" =
    [{| type := order_block; direction := bullish; priceLevel := 1900;
        confidence := 0.75; coordinates := zero_rect |};
     {| type := liquidity; direction := bearish; priceLevel := 1900;
        confidence := 0.7; coordinates := zero_rect |}] /\
  length (scan_line "bullish order block below liquidity pool at 1,900") = 2.
Proof.
  assert (H1 : extractPrice "bullish order block below liquidity pool at 1,900"
               = Some 1900%Q)
    by (vm_compute; reflexivity).
  assert (H2 : Qeq_bool 1900 0 = false) by (vm_compute; reflexivity).
  destruct (proj2 (C9_one_per_matched_category _) _ H1 H2) as (_ & Hlen & Hboth).
  destruct Hboth as (_ & Htwo); try (vm_compute; reflexivity).
  destruct Htwo as (d1 & d2 & Heq); try (vm_compute; reflexivity).
  split; [exact H1|]. split; [vm_compute; reflexivity|].
  rewrite Heq. reflexivity.
Defined.

(** C10: when the first number on a line reads as 0, the line adds no
    structure, whatever keywords it matches: the guard [if (price)] treats
    the extracted 0 like the [null] of a line without a number. *)
Theorem C10_zero_price_dropped (line : string) (p : Q) :
  extractPrice line = Some p ->
  (p == 0)%Q ->
  truthy (extractPrice line) = false /\
  (forall ty, rule_output ty line = []) /\
  scan_line line = [] /\
  (forall acc, loop_body acc line = acc).
Proof.
  intros Hp Hz. apply Qeq_bool_iff in Hz.
  assert (Hr : forall ty, rule_output ty line = [])
    by (intros ty; now apply (rule_output_zero ty line p)).
  assert (Hs : scan_line line = []).
  { rewrite scan_line_rules. cbn [flat_map all_types]. now rewrite !Hr. }
  repeat split; try assumption.
  - rewrite Hp. unfold truthy. now rewrite Hz.
  - intros acc. now rewrite loop_body_scan_line, Hs, app_nil_r.
Qed.

Lemma C10_zero_price_dropped_witness :
  matches_rule bos "bos bullish; order block at 0.00, next 1950" = true /\
  matches_rule order_block "bos bullish; order block at 0.00, next 1950" = true /\
  extractPrice "bos bullish; order block at 0.00, next 1950" = Some 0%Q /\
  scan_line "bos bullish; order block at 0.00, next 1950" = [].
Proof.
  assert (H1 : extractPrice "bos bullish; order block at 0.00, next 1950" = Some 0%Q)
    by (vm_compute; reflexivity).
  assert (H2 : (0 == 0)%Q) by reflexivity.
  destruct (C10_zero_price_dropped _ _ H1 H2) as (_ & _ & Hs & _).
  split; [vm_compute; reflexivity|]. split; [vm_compute; reflexivity|].
  split; [exact H1|exact Hs].
Defined.

(** ** Claims about the analyzer *)

(** C5: [parseAnalysis] returns trend neutral, no structures, no key levels
    and the input text unchanged, for every text and timeframe label; hence
    every analysis that [analyzeChart] returns has these fixed structured
    fields, and its text is the content of the service's response. *)
Theorem C5_parseAnalysis_fixed_fields (content timeframe : string) :
  (OpenAIAnalyzer.trendDirection (OpenAIAnalyzer.parseAnalysis content timeframe) = neutral /\
   OpenAIAnalyzer.structures (OpenAIAnalyzer.parseAnalysis content timeframe) = [] /\
   OpenAIAnalyzer.keyLevels (OpenAIAnalyzer.parseAnalysis content timeframe) = [] /\
   OpenAIAnalyzer.analysis (OpenAIAnalyzer.parseAnalysis content timeframe) = content /\
   OpenAIAnalyzer.timeframe (OpenAIAnalyzer.parseAnalysis content timeframe) = timeframe) /\
  (forall fetch imageBase64 a,
     OpenAIAnalyzer.analyzeChart fetch imageBase64 timeframe = OpenAIAnalyzer.Returned a ->
     OpenAIAnalyzer.trendDirection a = neutral /\
     OpenAIAnalyzer.structures a = [] /\
     OpenAIAnalyzer.keyLevels a = [] /\
     exists response,
       fetch (OpenAIAnalyzer.ChartRequest imageBase64 timeframe) = Some response /\
       OpenAIAnalyzer.content response = Some (OpenAIAnalyzer.analysis a)).
Proof.
  split; [repeat split|].
  intros fetch img a. unfold OpenAIAnalyzer.analyzeChart.
  destruct (fetch _) as [response|] eqn:Hf; [|discriminate].
  destruct (OpenAIAnalyzer.ok response); cbn [negb]; [|discriminate].
  destruct (OpenAIAnalyzer.content response) as [c|] eqn:Hc; [|discriminate].
  intros [= <-]. repeat split. exists response. now split.
Qed.

Lemma C5_parseAnalysis_fixed_fields_witness :
  OpenAIAnalyzer.analyzeChart
    (Samples.service_ok "BOS bullish at 1,984.25; strong uptrend") "png" "4h"
  = OpenAIAnalyzer.Returned
      (OpenAIAnalyzer.parseAnalysis "BOS bullish at 1,984.25; strong uptrend" "4h") /\
  OpenAIAnalyzer.trendDirection
    (OpenAIAnalyzer.parseAnalysis "BOS bullish at 1,984.25; strong uptrend" "4h") = neutral /\
  OpenAIAnalyzer.structures
    (OpenAIAnalyzer.parseAnalysis "BOS bullish at 1,984.25; strong uptrend" "4h") = [].
Proof.
  assert (H : OpenAIAnalyzer.analyzeChart
                (Samples.service_ok "BOS bullish at 1,984.25; strong uptrend") "png" "4h"
              = OpenAIAnalyzer.Returned
                  (OpenAIAnalyzer.parseAnalysis
                     "BOS bullish at 1,984.25; strong uptrend" "4h"))
    by reflexivity.
  destruct (proj2 (C5_parseAnalysis_fixed_fields "" "4h") _ _ _ H) as (Ht & Hs & _).
  split; [exact H|]. split; [exact Ht|exact Hs].
Defined.

(** C1, as stated, fails: on a bundle with bullish 4h trend, a bullish 15m
    structure, a bullish 3m order block at 100 and a bullish 1m structure at
    102, all with confidence at least 0.75, and a successful reply of the
    service, [generateSignal] returns a record with no signal type, no entry
    price and confidence 0. *)
Lemma C1_counterexample :
  OpenAIAnalyzer.trendDirection Samples.sample_4h = bullish /\
  In (Samples.structure choch bullish 98 0.8)
     (OpenAIAnalyzer.structures Samples.sample_15m) /\
  In (Samples.structure order_block bullish 100 0.75)
     (OpenAIAnalyzer.structures Samples.sample_3m) /\
  In (Samples.structure bos bullish 102 0.9)
     (OpenAIAnalyzer.structures Samples.sample_1m) /\
  OpenAIAnalyzer.generateSignal (Samples.service_ok Samples.sample_reply)
    Samples.sample_4h Samples.sample_15m Samples.sample_3m Samples.sample_1m []
  = OpenAIAnalyzer.Returned (OpenAIAnalyzer.parseSignal Samples.sample_reply) /\
  OpenAIAnalyzer.signalType (OpenAIAnalyzer.parseSignal Samples.sample_reply)
    <> Some OpenAIAnalyzer.buy /\
  OpenAIAnalyzer.entryPrice (OpenAIAnalyzer.parseSignal Samples.sample_reply)
    <> Some 102%Q /\
  ~ (OpenAIAnalyzer.confidence (OpenAIAnalyzer.parseSignal Samples.sample_reply)
     == 0.75)%Q.
Proof.
  repeat split; try (left; reflexivity); discriminate.
Qed.

(** C1, amended: for every four-timeframe bundle (those of the claim
    included) and every list of rules, when the service answers with a
    successful response, [generateSignal] returns the record built by
    [parseSignal]: signal type null, entry price null, confidence 0; no
    returned record is a buy signal.  No confidence threshold is read. *)
Theorem C1_generateSignal_empty_signal
  (fetch : OpenAIAnalyzer.Request -> option OpenAIAnalyzer.Response)
  (tf4h tf15m tf3m tf1m : OpenAIAnalyzer.ChartAnalysis)
  (trainingRules : list string) (response : OpenAIAnalyzer.Response) (c : string) :
  fetch (OpenAIAnalyzer.SignalRequest tf4h tf15m tf3m tf1m trainingRules) = Some response ->
  OpenAIAnalyzer.ok response = true ->
  OpenAIAnalyzer.content response = Some c ->
  exists sig,
    OpenAIAnalyzer.generateSignal fetch tf4h tf15m tf3m tf1m trainingRules
      = OpenAIAnalyzer.Returned sig /\
    sig = OpenAIAnalyzer.parseSignal c /\
    OpenAIAnalyzer.signalType sig = None /\
    OpenAIAnalyzer.entryPrice sig = None /\
    OpenAIAnalyzer.confidence sig = 0%Q.
Proof.
  intros Hf Hok Hc. exists (OpenAIAnalyzer.parseSignal c).
  unfold OpenAIAnalyzer.generateSignal. rewrite Hf, Hok, Hc. now repeat split.
Qed.

Lemma C1_generateSignal_empty_signal_witness :
  exists sig,
    OpenAIAnalyzer.generateSignal (Samples.service_ok Samples.sample_reply)
      Samples.sample_4h Samples.sample_15m Samples.sample_3m Samples.sample_1m []
    = OpenAIAnalyzer.Returned sig /\
    OpenAIAnalyzer.signalType sig = None /\
    OpenAIAnalyzer.entryPrice sig = None.
Proof.
  destruct (C1_generateSignal_empty_signal
              (Samples.service_ok Samples.sample_reply)
              Samples.sample_4h Samples.sample_15m Samples.sample_3m Samples.sample_1m []
              {| OpenAIAnalyzer.ok := true; OpenAIAnalyzer.statusText := "OK";
                 OpenAIAnalyzer.content := Some Samples.sample_reply |}
              Samples.sample_reply eq_refl eq_refl eq_refl)
    as (sig & H1 & _ & H2 & H3 & _).
  exists sig. split; [exact H1|]. split; [exact H2|exact H3].
Defined.

(** No record that [generateSignal] returns is a buy or a sell signal: its
    signal type, entry price, stop loss, take profit and risk/reward ratio
    are all null.  A statement about the buy and sell signals it returns has
    therefore nothing to apply to. *)
Lemma generateSignal_never_buy_or_sell
  (fetch : OpenAIAnalyzer.Request -> option OpenAIAnalyzer.Response)
  (tf4h tf15m tf3m tf1m : OpenAIAnalyzer.ChartAnalysis)
  (trainingRules : list string) (sig : OpenAIAnalyzer.TradingSignal) :
  OpenAIAnalyzer.generateSignal fetch tf4h tf15m tf3m tf1m trainingRules
    = OpenAIAnalyzer.Returned sig ->
  OpenAIAnalyzer.signalType sig = None /\
  OpenAIAnalyzer.entryPrice sig = None /\
  OpenAIAnalyzer.stopLoss sig = None /\
  OpenAIAnalyzer.takeProfit sig = None /\
  OpenAIAnalyzer.riskRewardRatio sig = None.
Proof.
  unfold OpenAIAnalyzer.generateSignal.
  destruct (fetch _) as [response|]; [|discriminate].
  destruct (OpenAIAnalyzer.ok response); cbn [negb]; [|discriminate].
  destruct (OpenAIAnalyzer.content response) as [c|]; [|discriminate].
  intros [= <-]. now repeat split.
Qed.

(** ** Claims about the alert component *)

Section Alerts.
Import AlertSystem.
Variable toFixed2 : Q -> string.
Variable toUpperCase : string -> string.

Lemma showAlert_trace (render : Render) (signal : Signal) (w : World) :
  trace (showAlert toFixed2 toUpperCase render signal w)
    = (trace w ++ alert_effects toFixed2 toUpperCase render w signal)%list.
Proof.
  unfold showAlert, alert_effects, playAlertSound, toast_of.
  destruct w as [ts sw grant tbl tr], render as [snd ntf]; cbn.
  destruct ntf, snd, grant; cbn; rewrite <- ?app_assoc, ?app_nil_r; reflexivity.
Qed.

Lemma showAlert_table (render : Render) (signal : Signal) (w : World) :
  table (showAlert toFixed2 toUpperCase render signal w)
    = alter (fun _ => true) (id signal) (table w).
Proof.
  unfold showAlert, playAlertSound.
  destruct w as [ts sw grant tbl tr], render as [snd ntf]; cbn.
  destruct ntf, snd, grant; reflexivity.
Qed.

Lemma showAlert_state (render : Render) (signal : Signal) (w : World) :
  switches (showAlert toFixed2 toUpperCase render signal w) = switches w /\
  notificationGranted (showAlert toFixed2 toUpperCase render signal w)
    = notificationGranted w.
Proof.
  unfold showAlert, playAlertSound.
  destruct w as [ts sw grant tbl tr], render as [snd ntf]; cbn.
  destruct ntf, snd, grant; split; reflexivity.
Qed.

Lemma alert_effects_permission (render : Render) (signal : Signal) (w w' : World) :
  notificationGranted w' = notificationGranted w ->
  alert_effects toFixed2 toUpperCase render w' signal
    = alert_effects toFixed2 toUpperCase render w signal.
Proof. unfold alert_effects. now intros ->. Qed.

Lemma showAlert_toggleSound (render : Render) (signal : Signal) (w : World) :
  showAlert toFixed2 toUpperCase render signal (toggleSound w)
    = toggleSound (showAlert toFixed2 toUpperCase render signal w).
Proof.
  unfold showAlert, playAlertSound.
  destruct w as [ts sw grant tbl tr], render as [snd ntf]; cbn.
  destruct ntf, snd, grant; reflexivity.
Qed.

Lemma showAlert_toggleNotifications (render : Render) (signal : Signal) (w : World) :
  showAlert toFixed2 toUpperCase render signal (toggleNotifications w)
    = toggleNotifications (showAlert toFixed2 toUpperCase render signal w).
Proof.
  unfold showAlert, playAlertSound.
  destruct w as [ts sw grant tbl tr], render as [snd ntf]; cbn.
  destruct ntf, snd, grant; reflexivity.
Qed.

(** C3, amended: the component has no check-and-set and [showAlert] returns
    no value.  Each delivery of an INSERT payload whose own [alert_sent]
    field is false runs the [showAlert] of the render that subscribed: it
    issues the toast and the sound according to the switches of that render
    (both on when the component mounts), and the system notification when
    the browser permission is granted, and then writes [alert_sent = true]
    to the row; so two deliveries of the same payload issue the effects
    twice, and the row ends with [alert_sent] true.  A payload whose
    [alert_sent] field is already true issues nothing.  Toggling a switch
    changes the component state but not what a delivery does. *)
Theorem C3_alert_per_delivery (subscribed : Render) (signal : Signal) (w : World) :
  alert_sent signal = false ->
  table w !! id signal = Some false ->
  trace (on_insert toFixed2 toUpperCase subscribed signal w)
    = (trace w ++ alert_effects toFixed2 toUpperCase subscribed w signal)%list /\
  trace (on_insert toFixed2 toUpperCase subscribed signal
           (on_insert toFixed2 toUpperCase subscribed signal w))
    = (trace w ++ alert_effects toFixed2 toUpperCase subscribed w signal
               ++ alert_effects toFixed2 toUpperCase subscribed w signal)%list /\
  table (on_insert toFixed2 toUpperCase subscribed signal w) !! id signal = Some true /\
  table (on_insert toFixed2 toUpperCase subscribed signal
           (on_insert toFixed2 toUpperCase subscribed signal w)) !! id signal
    = Some true /\
  (forall seen w', alert_sent seen = true ->
     on_insert toFixed2 toUpperCase subscribed seen w' = w') /\
  on_insert toFixed2 toUpperCase subscribed signal (toggleSound w)
    = toggleSound (on_insert toFixed2 toUpperCase subscribed signal w) /\
  on_insert toFixed2 toUpperCase subscribed signal (toggleNotifications w)
    = toggleNotifications (on_insert toFixed2 toUpperCase subscribed signal w).
Proof.
  intros Hflag Hrow. unfold on_insert. rewrite Hflag. cbn [negb].
  destruct (showAlert_state subscribed signal w) as (_ & Hg).
  repeat split.
  - apply showAlert_trace.
  - rewrite !showAlert_trace, (alert_effects_permission _ _ _ _ Hg).
    now rewrite <- app_assoc.
  - rewrite showAlert_table, lookup_alter_eq, Hrow. reflexivity.
  - rewrite !showAlert_table, !lookup_alter_eq, Hrow. reflexivity.
  - intros seen w' ->. reflexivity.
  - apply showAlert_toggleSound.
  - apply showAlert_toggleNotifications.
Qed.

End Alerts.

(** C3, as stated, fails: two deliveries of the same new signal, whose row
    starts with [alert_sent] false, play the sound twice and show two
    toasts; neither call is held back. *)
Lemma C3_counterexample :
  AlertSystem.alert_sent Samples.sample_signal = false /\
  AlertSystem.table Samples.sample_world !! "sig-1" = Some false /\
  length (List.filter is_sound
    (AlertSystem.trace
       (AlertSystem.on_insert Samples.sample_toFixed2 Samples.sample_toUpperCase
          (AlertSystem.subscribe Samples.sample_world) Samples.sample_signal
          (AlertSystem.on_insert Samples.sample_toFixed2 Samples.sample_toUpperCase
             (AlertSystem.subscribe Samples.sample_world) Samples.sample_signal
             Samples.sample_world)))) = 2 /\
  length (AlertSystem.toasts
       (AlertSystem.on_insert Samples.sample_toFixed2 Samples.sample_toUpperCase
          (AlertSystem.subscribe Samples.sample_world) Samples.sample_signal
          (AlertSystem.on_insert Samples.sample_toFixed2 Samples.sample_toUpperCase
             (AlertSystem.subscribe Samples.sample_world) Samples.sample_signal
             Samples.sample_world))) = 2 /\
  AlertSystem.trace
    (AlertSystem.on_insert Samples.sample_toFixed2 Samples.sample_toUpperCase
       (AlertSystem.subscribe Samples.sample_world) Samples.sample_signal
       (AlertSystem.on_insert Samples.sample_toFixed2 Samples.sample_toUpperCase
          (AlertSystem.subscribe Samples.sample_world) Samples.sample_signal
          Samples.sample_world))
  = [AlertSystem.ShowToast
       (toast_of Samples.sample_toFixed2 Samples.sample_toUpperCase Samples.sample_signal);
     AlertSystem.ScheduleRemoveToast "sig-1";
     AlertSystem.PlaySound;
     AlertSystem.SystemNotification "BUY Signal at $102.00" "sig-1";
     AlertSystem.ShowToast
       (toast_of Samples.sample_toFixed2 Samples.sample_toUpperCase Samples.sample_signal);
     AlertSystem.ScheduleRemoveToast "sig-1";
     AlertSystem.PlaySound;
     AlertSystem.SystemNotification "BUY Signal at $102.00" "sig-1"].
Proof. repeat split; vm_compute; reflexivity. Qed.

Lemma C3_alert_per_delivery_witness :
  AlertSystem.alert_sent Samples.sample_signal = false /\
  AlertSystem.table Samples.sample_world !! AlertSystem.id Samples.sample_signal
    = Some false /\
  AlertSystem.table
    (AlertSystem.on_insert Samples.sample_toFixed2 Samples.sample_toUpperCase
       AlertSystem.initial_switches Samples.sample_signal
       (AlertSystem.on_insert Samples.sample_toFixed2 Samples.sample_toUpperCase
          AlertSystem.initial_switches Samples.sample_signal
          Samples.sample_world)) !! AlertSystem.id Samples.sample_signal
  = Some true /\
  List.filter is_sound
    (AlertSystem.trace
       (AlertSystem.on_insert Samples.sample_toFixed2 Samples.sample_toUpperCase
          AlertSystem.initial_switches Samples.sample_signal
          (AlertSystem.toggleSound Samples.sample_world)))
  = [AlertSystem.PlaySound].
Proof.
  assert (H1 : AlertSystem.alert_sent Samples.sample_signal = false) by reflexivity.
  assert (H2 : AlertSystem.table Samples.sample_world
                 !! AlertSystem.id Samples.sample_signal = Some false)
    by (vm_compute; reflexivity).
  destruct (C3_alert_per_delivery Samples.sample_toFixed2 Samples.sample_toUpperCase
              AlertSystem.initial_switches _ _ H1 H2)
    as (_ & _ & _ & H & _ & Hs & _).
  split; [exact H1|]. split; [exact H2|]. split; [exact H|].
  rewrite Hs. vm_compute; reflexivity.
Defined.

(** * Further properties of the code *)

(** ** The structure extractor *)

Lemma lower_capital_char (c : ascii) :
  lower_char (TextViews.capital c) = lower_char c /\
  lower_char (lower_char c) = lower_char c.
Proof. destruct c as [[] [] [] [] [] [] [] []]; vm_compute; split; reflexivity. Qed.

Lemma toLowerCase_capitalised (s : string) :
  toLowerCase (TextViews.capitalised s) = toLowerCase s.
Proof.
  unfold toLowerCase, TextViews.capitalised. induction s as [|c s IH]; [reflexivity|].
  cbn [map_chars]. now rewrite IH, (proj1 (lower_capital_char c)).
Qed.

Lemma toLowerCase_idempotent (s : string) :
  toLowerCase (toLowerCase s) = toLowerCase s.
Proof.
  unfold toLowerCase. induction s as [|c s IH]; [reflexivity|].
  cbn [map_chars]. now rewrite IH, (proj2 (lower_capital_char c)).
Qed.

Lemma toLowerCase_app (a b : string) :
  toLowerCase (a ++ b) = toLowerCase a ++ toLowerCase b.
Proof.
  unfold toLowerCase. induction a as [|c a IH]; [reflexivity|].
  simpl. now rewrite IH.
Qed.

Lemma split_newline_app (a b : string) :
  split_newline (a ++ String newline b) = (split_newline a ++ split_newline b)%list.
Proof.
  induction a as [|c a IH].
  - reflexivity.
  - simpl. rewrite IH.
    destruct (Ascii.eqb c newline); [reflexivity|].
    pose proof (split_newline_nonempty a) as Hne.
    destruct (split_newline a) as [|h t]; [contradiction|reflexivity].
Qed.

(** X1: the extractor is insensitive to the case of the letters a-z and
    ignores its [timeframe] argument: a text with its letters a-z written as
    capitals, and the lower-cased text, give the same structures as the text
    itself, under any timeframe labels. *)
Theorem extract_case_insensitive (text tf tf' : string) :
  extractStructuresFromAnalysis (TextViews.capitalised text) tf
    = extractStructuresFromAnalysis text tf' /\
  extractStructuresFromAnalysis (toLowerCase text) tf
    = extractStructuresFromAnalysis text tf'.
Proof.
  unfold extractStructuresFromAnalysis.
  now rewrite toLowerCase_capitalised, toLowerCase_idempotent.
Qed.

(** X2: the extractor works line by line: the structures of two texts
    joined by a line break are the structures of the first followed by the
    structures of the second. *)
Theorem extract_joined_texts (a b tf : string) :
  extractStructuresFromAnalysis (a ++ String newline b) tf
    = (extractStructuresFromAnalysis a tf ++ extractStructuresFromAnalysis b tf)%list.
Proof.
  rewrite !extractStructures_flat_map, toLowerCase_app.
  change (toLowerCase (String newline b)) with (String newline (toLowerCase b)).
  now rewrite split_newline_app, flat_map_app.
Qed.

Lemma decimal_value_nonneg (ip fp : string) : (0 <= decimal_value ip fp)%Q.
Proof. unfold decimal_value, Qle. cbn. lia. Qed.

Lemma read_decimal_nonneg (ip fp : string) : (0 <= read_decimal ip fp)%Q.
Proof.
  unfold read_decimal. destruct (underflows _); [apply Qle_refl|apply decimal_value_nonneg].
Qed.

Lemma parseFloat_nonneg (s : string) (p : Q) : parseFloat s = Some p -> (0 <= p)%Q.
Proof.
  unfold parseFloat. destruct (span_digits s) as [ip rest].
  destruct rest as [|c r].
  - destruct ip; [discriminate|]. intros [= <-]. apply read_decimal_nonneg.
  - destruct c as [[] [] [] [] [] [] [] []];
      try (destruct ip; [discriminate|]; intros [= <-]; apply read_decimal_nonneg).
    destruct (span_digits r) as [fp ?].
    destruct ip, fp; try discriminate; intros [= <-]; apply read_decimal_nonneg.
Qed.

(** The price read from a text is never negative: a minus sign is not part
    of the pattern. *)
Lemma extractPrice_nonneg (text : string) (p : Q) :
  extractPrice text = Some p -> (0 <= p)%Q.
Proof.
  unfold extractPrice. destruct (first_match text) as [m|]; [|discriminate].
  cbn zeta. destruct (isNaN _); [discriminate|]. apply parseFloat_nonneg.
Qed.

(** Facts about every structure in the extractor's result. *)
Lemma extracted_structure_invariants_core (text tf : string) (s : MarketStructure) :
  In s (extractStructuresFromAnalysis text tf) ->
  (0 < priceLevel s)%Q /\
  confidence s = rule_confidence (type s) /\
  (0.7 <= confidence s)%Q /\ (confidence s <= 0.85)%Q /\
  coordinates s = zero_rect.
Proof.
  rewrite extractStructures_flat_map. intros Hs.
  apply in_flat_map in Hs as (line & _ & Hs).
  rewrite scan_line_rules in Hs. apply in_flat_map in Hs as (ty & _ & Hs).
  apply rule_output_In in Hs as (_ & p & Hp & Hz & ->). cbn.
  split; [|split; [reflexivity|split; [|split; [|reflexivity]]]].
  - apply extractPrice_nonneg in Hp.
    apply Qle_lteq in Hp as [Hlt|Heq]; [exact Hlt|].
    symmetry in Heq. apply Qeq_bool_iff in Heq. congruence.
  - destruct ty; vm_compute; discriminate.
  - destruct ty; vm_compute; discriminate.
Qed.

(** X3: every structure the extractor returns has a strictly positive price,
    the confidence constant of its category (between 0.7 and 0.85), and the
    zero rectangle as coordinates. *)
Theorem extracted_structure_invariants (text tf : string) (s : MarketStructure) :
  In s (extractStructuresFromAnalysis text tf) ->
  (0 < priceLevel s)%Q /\
  confidence s = rule_confidence (type s) /\
  (0.7 <= confidence s)%Q /\ (confidence s <= 0.85)%Q /\
  coordinates s = zero_rect.
Proof. intros; eapply extracted_structure_invariants_core; eassumption. Qed.

Lemma extracted_structure_invariants_witness :
  In {| type := liquidity; direction := bearish; priceLevel := 1900;
        confidence := 0.7; coordinates := zero_rect |}
     (extractStructuresFromAnalysis "Liquidity pool below -1,900" "15m") /\
  (0 < 1900)%Q.
Proof.
  assert (H : In {| type := liquidity; direction := bearish; priceLevel := 1900;
                    confidence := 0.7; coordinates := zero_rect |}
                 (extractStructuresFromAnalysis "Liquidity pool below -1,900" "15m"))
    by (vm_compute; left; reflexivity).
  split; [exact H|].
  exact (proj1 (extracted_structure_invariants _ _ _ H)).
Defined.

Import TextViews.

Lemma starts_with_digit_has_digit (s : string) :
  starts_with_digit s = true -> has_digit s = true.
Proof. destruct s as [|c r]; [discriminate|]. cbn. now intros ->. Qed.

Lemma first_match_none_iff (text : string) :
  first_match text = None <-> has_digit text = false.
Proof.
  induction text as [|c r IH]; [now split|].
  cbn [first_match has_digit]. destruct (is_digit c); [now split|]. cbn [orb].
  destruct (Ascii.eqb c "$"%char && starts_with_digit r) eqn:Hd; [|exact IH].
  apply andb_true_iff in Hd as [_ Hd]. apply starts_with_digit_has_digit in Hd.
  rewrite Hd. now split.
Qed.

(** No price is read exactly from the texts without a digit. *)
Lemma extractPrice_none_iff_no_digit_core (text : string) :
  extractPrice text = None <-> has_digit text = false.
Proof. rewrite extractPrice_none. apply first_match_none_iff. Qed.

(** X4: a text yields a price exactly when it contains a decimal digit. *)
Theorem extractPrice_none_iff_no_digit (text : string) :
  extractPrice text = None <-> has_digit text = false.
Proof. intros; eapply extractPrice_none_iff_no_digit_core; eassumption. Qed.

Lemma extractPrice_dollar_digit (s : string) :
  starts_with_digit s = true ->
  extractPrice (String "$"%char s) = extractPrice s.
Proof.
  intros Hd. destruct s as [|d r]; [discriminate|]. cbn [starts_with_digit] in Hd.
  unfold extractPrice. cbn [first_match]. rewrite Hd.
  change (is_digit "$"%char) with false. cbn [Ascii.eqb Bool.eqb andb starts_with_digit].
  rewrite Hd. cbn [number_text]. rewrite Hd. reflexivity.
Qed.

Lemma extractPrice_skip_char (c : ascii) (s : string) :
  is_digit c = false -> extractPrice (String c s) = extractPrice s.
Proof.
  intros Hc. destruct (Ascii.eqb c "$"%char && starts_with_digit s) eqn:Hd.
  - apply andb_true_iff in Hd as [Hdol Hd]. apply Ascii.eqb_eq in Hdol. subst c.
    now apply extractPrice_dollar_digit.
  - unfold extractPrice. cbn [first_match]. now rewrite Hc, Hd.
Qed.

(** X5: what precedes the first digit of a text does not matter to the price
    read from it, so a leading minus sign is ignored and a negative number
    reads as its absolute value; the price is never negative. *)
Theorem extractPrice_ignores_prefix (prefix s : string) :
  has_digit prefix = false ->
  extractPrice (prefix ++ s) = extractPrice s /\
  (forall p, extractPrice (prefix ++ s) = Some p -> (0 <= p)%Q).
Proof.
  intros Hp. split; [|intros p; apply extractPrice_nonneg].
  induction prefix as [|c pre IH]; [reflexivity|].
  cbn [has_digit] in Hp. apply orb_false_iff in Hp as [Hc Hpre].
  change (String c pre ++ s) with (String c (pre ++ s)).
  rewrite (extractPrice_skip_char c _ Hc). now apply IH.
Qed.

Lemma extractPrice_ignores_prefix_witness :
  extractPrice "stop at -$1,250.75" = extractPrice "1,250.75" /\
  extractPrice "stop at -$1,250.75" = Some 1250.75%Q.
Proof.
  assert (H : has_digit "stop at -$" = false) by reflexivity.
  destruct (extractPrice_ignores_prefix "stop at -$" "1,250.75" H) as (Heq & _).
  split; [exact Heq|]. vm_compute; reflexivity.
Defined.

Lemma startsWith_head (s p : string) (c : ascii) :
  startsWith s (String c p) = true -> exists r, s = String c r.
Proof.
  destruct s as [|b r]; [discriminate|]. cbn [startsWith].
  intros H. apply andb_true_iff in H as [H _]. apply Ascii.eqb_eq in H. subst b.
  now exists r.
Qed.

Lemma includes_digit_has_digit (s p : string) (c : ascii) :
  is_digit c = true -> includes s (String c p) = true -> has_digit s = true.
Proof.
  intros Hc. induction s as [|b r IH]; [discriminate|].
  cbn [includes has_digit]. intros H. apply orb_true_iff in H as [H|H].
  - apply startsWith_head in H as (r' & [= -> _]). now rewrite Hc.
  - rewrite (IH H). apply orb_true_r.
Qed.

(** X6: a line that matches the Fibonacci rule always has a price, because
    the keyword test itself demands "50" or "0.5"; it adds a fib_50
    structure at the first number of the line unless that number is 0. *)
Theorem fib_rule_always_priced (line : string) :
  matches_rule fib_50 line = true ->
  exists p,
    extractPrice line = Some p /\
    of_type fib_50 (scan_line line) =
      if Qeq_bool p 0 then []
      else [{| type := fib_50; direction := neutral; priceLevel := p;
               confidence := 0.75; coordinates := zero_rect |}].
Proof.
  intros Hm.
  assert (Hd : has_digit line = true).
  { cbn [matches_rule] in Hm. apply andb_true_iff in Hm as [_ Hm].
    apply orb_true_iff in Hm as [Hm|Hm];
      eapply includes_digit_has_digit; try exact Hm; reflexivity. }
  destruct (extractPrice line) as [p|] eqn:Hp.
  - exists p. split; [reflexivity|]. rewrite of_type_scan_line.
    destruct (Qeq_bool p 0) eqn:Hz.
    + now apply (rule_output_zero _ _ p).
    + now rewrite (rule_output_priced _ _ _ Hm Hp Hz).
  - apply extractPrice_none_iff_no_digit_core in Hp. congruence.
Qed.

Lemma fib_rule_always_priced_witness :
  matches_rule fib_50 "fib 50% retracement near 1.0842" = true /\
  of_type fib_50 (scan_line "fib 50% retracement near 1.0842") =
    [{| type := fib_50; direction := neutral; priceLevel := 50;
        confidence := 0.75; coordinates := zero_rect |}].
Proof.
  assert (H : matches_rule fib_50 "fib 50% retracement near 1.0842" = true)
    by reflexivity.
  destruct (fib_rule_always_priced _ H) as (p & Hp & Hout).
  split; [exact H|].
  assert (Hp' : extractPrice "fib 50% retracement near 1.0842" = Some 50%Q)
    by (vm_compute; reflexivity).
  rewrite Hp' in Hp. injection Hp as <-. exact Hout.
Defined.

(** X7: when the price of a line is not 0, the categories of the structures
    it adds are the categories whose keyword test it matches, in the fixed
    order choch, bos, order_block, liquidity, poi, fib_50, and all of them
    carry that one price. *)
Theorem scan_line_rule_order (line : string) (p : Q) :
  extractPrice line = Some p ->
  Qeq_bool p 0 = false ->
  map type (scan_line line) = List.filter (fun ty => matches_rule ty line) all_types /\
  map priceLevel (scan_line line) = repeat p (length (scan_line line)).
Proof.
  intros Hp Hz. rewrite scan_line_rules. cbn [flat_map all_types List.filter].
  rewrite !(rule_output_cases _ _ _ Hp Hz).
  destruct (matches_rule choch line), (matches_rule bos line),
    (matches_rule order_block line), (matches_rule liquidity line),
    (matches_rule poi line), (matches_rule fib_50 line); split; reflexivity.
Qed.

Lemma scan_line_rule_order_witness :
  map type (scan_line "poi: bullish choch after bos, order block at 1,905.5")
    = [choch; bos; order_block; poi] /\
  map priceLevel (scan_line "poi: bullish choch after bos, order block at 1,905.5")
    = [1905.5; 1905.5; 1905.5; 1905.5]%Q.
Proof.
  assert (H1 : extractPrice "poi: bullish choch after bos, order block at 1,905.5"
               = Some 1905.5%Q) by (vm_compute; reflexivity).
  assert (H2 : Qeq_bool 1905.5 0 = false) by reflexivity.
  destruct (scan_line_rule_order _ _ H1 H2) as (Ht & Hp).
  split.
  - rewrite Ht. vm_compute; reflexivity.
  - rewrite Hp. vm_compute; reflexivity.
Defined.

(** ** The chart analysis service and [analyzeCapture] *)

(** X8: [analyzeChart] returns exactly when the service answers with an ok
    response whose content can be read, and then it returns [parseAnalysis]
    of that content; a response that is not ok throws the message "OpenAI
    API error: " followed by its status text, whatever its body. *)
Theorem analyzeChart_outcomes
  (fetch : OpenAIAnalyzer.Request -> option OpenAIAnalyzer.Response)
  (imageBase64 tf : string) :
  (forall a,
     OpenAIAnalyzer.analyzeChart fetch imageBase64 tf = OpenAIAnalyzer.Returned a <->
     exists response c,
       fetch (OpenAIAnalyzer.ChartRequest imageBase64 tf) = Some response /\
       OpenAIAnalyzer.ok response = true /\
       OpenAIAnalyzer.content response = Some c /\
       a = OpenAIAnalyzer.parseAnalysis c tf) /\
  (forall response,
     fetch (OpenAIAnalyzer.ChartRequest imageBase64 tf) = Some response ->
     OpenAIAnalyzer.ok response = false ->
     OpenAIAnalyzer.analyzeChart fetch imageBase64 tf =
     OpenAIAnalyzer.Thrown
       (OpenAIAnalyzer.ErrorMessage
          ("OpenAI API error: " ++ OpenAIAnalyzer.statusText response))).
Proof.
  unfold OpenAIAnalyzer.analyzeChart. split.
  - intros a. split.
    + destruct (fetch _) as [response|]; [|discriminate].
      destruct (OpenAIAnalyzer.ok response) eqn:Hok; cbn [negb]; [|discriminate].
      destruct (OpenAIAnalyzer.content response) as [c|] eqn:Hc; [|discriminate].
      intros [= <-]. now exists response, c.
    + intros (response & c & -> & -> & -> & ->). reflexivity.
  - intros response -> ->. reflexivity.
Qed.

Lemma analyzeChart_outcomes_witness :
  OpenAIAnalyzer.analyzeChart
    (fun _ => Some {| OpenAIAnalyzer.ok := false;
                      OpenAIAnalyzer.statusText := "Too Many Requests";
                      OpenAIAnalyzer.content := Some "BOS bullish 100" |})
    "png" "4h"
  = OpenAIAnalyzer.Thrown
      (OpenAIAnalyzer.ErrorMessage "OpenAI API error: Too Many Requests").
Proof.
  exact (proj2 (analyzeChart_outcomes
                  (fun _ => Some {| OpenAIAnalyzer.ok := false;
                                    OpenAIAnalyzer.statusText := "Too Many Requests";
                                    OpenAIAnalyzer.content := Some "BOS bullish 100" |})
                  "png" "4h") _ eq_refl eq_refl).
Defined.

Section CaptureProperties.
Import CaptureFlow.
Variable service : string -> OpenAIAnalyzer.Request -> option ChartResponse.
Variable user : option string.

(** [chart_analysis] is [OpenAIAnalyzer.analyzeChart] on every response
    whose content is not null: both throw the same exception, or the text
    the one returns is the [analysis] field of the record the other
    returns. *)
Lemma chart_analysis_typed (apiKey imageBase64 tf : string) :
  (forall response,
     service apiKey (OpenAIAnalyzer.ChartRequest imageBase64 tf) = Some response ->
     ok response = true -> content response <> NullContent) ->
  match OpenAIAnalyzer.analyzeChart (typed_service service apiKey) imageBase64 tf with
  | OpenAIAnalyzer.Returned a =>
      chart_analysis service apiKey imageBase64 tf
        = ChartReturned (Some (OpenAIAnalyzer.analysis a))
  | OpenAIAnalyzer.Thrown e =>
      chart_analysis service apiKey imageBase64 tf = ChartThrown e
  end.
Proof.
  intros Hnn. unfold OpenAIAnalyzer.analyzeChart, chart_analysis, typed_service.
  destruct (service apiKey _) as [response|] eqn:Hs; [|reflexivity].
  cbn [OpenAIAnalyzer.ok OpenAIAnalyzer.statusText OpenAIAnalyzer.content].
  destruct (ok response) eqn:Hok; cbn [negb]; [|reflexivity].
  specialize (Hnn response eq_refl Hok).
  destruct (content response); [reflexivity|contradiction|reflexivity].
Qed.

Lemma inserted_app (a b : list Action) :
  inserted (a ++ b)%list = (inserted a ++ inserted b)%list.
Proof. unfold inserted. apply flat_map_app. Qed.

Lemma inserted_map_insert (rows : list StructureRow) :
  inserted (map InsertStructure rows) = rows.
Proof. induction rows as [|r rs IH]; [reflexivity|]. cbn. now rewrite <- IH at 2. Qed.

Lemma completes_app (a b : list Action) :
  completes (a ++ b)%list = completes a || completes b.
Proof. unfold completes. apply existsb_app. Qed.

Lemma analyze_timeframes_spec (apiKey imageBase64 captureId : string) (tfs : list string) :
  inserted (fst (analyze_timeframes service user apiKey imageBase64 captureId tfs))
    = flat_map (rows_of service user apiKey imageBase64 captureId)
               (take_while (chart_ok service apiKey imageBase64) tfs) /\
  snd (analyze_timeframes service user apiKey imageBase64 captureId tfs)
    = forallb (chart_ok service apiKey imageBase64) tfs /\
  completes (fst (analyze_timeframes service user apiKey imageBase64 captureId tfs))
    = false.
Proof.
  induction tfs as [|tf rest (IH1 & IH2 & IH3)]; [now repeat split|].
  assert (Hok : chart_ok service apiKey imageBase64 tf =
                match chart_analysis service apiKey imageBase64 tf with
                | ChartReturned (Some _) => true
                | _ => false
                end).
  { unfold chart_ok, chart_text.
    now destruct (chart_analysis service apiKey imageBase64 tf) as [e|[t|]]. }
  assert (Hrows : rows_of service user apiKey imageBase64 captureId tf =
                  match chart_analysis service apiKey imageBase64 tf with
                  | ChartReturned (Some text) =>
                      map (insert_row user captureId tf)
                        (extractStructuresFromAnalysis text tf)
                  | _ => []
                  end).
  { unfold rows_of, chart_text.
    now destruct (chart_analysis service apiKey imageBase64 tf) as [e|[t|]]. }
  cbn [analyze_timeframes take_while forallb]. rewrite Hok.
  destruct (chart_analysis service apiKey imageBase64 tf) as [e|[text|]];
    cbn [extract_or_throw]; try (now repeat split).
  destruct (analyze_timeframes service user apiKey imageBase64 captureId rest)
    as [later finished].
  cbn [fst snd andb] in *. cbn [flat_map]. rewrite Hrows.
  set (rows := map (insert_row user captureId tf)
                 (extractStructuresFromAnalysis text tf)).
  assert (Hmap : map (fun st => InsertStructure (insert_row user captureId tf st))
                   (extractStructuresFromAnalysis text tf)
                 = map InsertStructure rows)
    by (unfold rows; now rewrite map_map).
  rewrite Hmap.
  change ((SetAnalysisStatus ("Analyzing " ++ tf ++ " timeframe...")
            :: map InsertStructure rows) ++ later)%list
    with ([SetAnalysisStatus ("Analyzing " ++ tf ++ " timeframe...")]
            ++ map InsertStructure rows ++ later)%list.
  repeat split.
  - rewrite !inserted_app, inserted_map_insert, IH1. reflexivity.
  - exact IH2.
  - rewrite !completes_app, IH3, orb_false_r. cbn [completes existsb orb].
    apply not_true_is_false. intros H.
    apply existsb_exists in H as (x & Hx & Hc).
    apply in_map_iff in Hx as (? & <- & _). discriminate.
Qed.

(** The run of [analyzeCapture] without a usable key. *)
Lemma analyzeCapture_without_key_core (openai_api_key : option string)
  (imageBase64 captureId : string) :
  key_missing openai_api_key = true ->
  analyzeCapture service user openai_api_key imageBase64 captureId
    = [SetAnalysisStatus "Analyzing chart...";
       SetAnalysisStatus "OpenAI API key not configured"; ClearStatusLater] /\
  inserted (analyzeCapture service user openai_api_key imageBase64 captureId) = [] /\
  completes (analyzeCapture service user openai_api_key imageBase64 captureId) = false.
Proof.
  intros Hk. unfold analyzeCapture.
  destruct openai_api_key as [k|]; [rewrite Hk|]; now repeat split.
Qed.

(** X9: without a usable API key (no settings row, a null key or an empty
    key) [analyzeCapture] only reports "OpenAI API key not configured": it
    inserts nothing, does not mark the capture completed, and its actions do
    not depend on the service, which it never calls. *)
Theorem analyzeCapture_without_key (openai_api_key : option string)
  (imageBase64 captureId : string) :
  key_missing openai_api_key = true ->
  analyzeCapture service user openai_api_key imageBase64 captureId
    = [SetAnalysisStatus "Analyzing chart...";
       SetAnalysisStatus "OpenAI API key not configured"; ClearStatusLater] /\
  inserted (analyzeCapture service user openai_api_key imageBase64 captureId) = [] /\
  completes (analyzeCapture service user openai_api_key imageBase64 captureId) = false.
Proof. intros; eapply analyzeCapture_without_key_core; eassumption. Qed.

(** The rows of the insert requests of a run of [analyzeCapture] with a
    key. *)
Lemma analyzeCapture_inserted_rows_core (apiKey imageBase64 captureId : string) :
  key_missing (Some apiKey) = false ->
  inserted (analyzeCapture service user (Some apiKey) imageBase64 captureId)
    = flat_map (rows_of service user apiKey imageBase64 captureId)
               (take_while (chart_ok service apiKey imageBase64) timeframes).
Proof.
  intros Hk. unfold analyzeCapture. rewrite Hk.
  pose proof (analyze_timeframes_spec apiKey imageBase64 captureId timeframes)
    as (H1 & _ & _).
  destruct (analyze_timeframes service user apiKey imageBase64 captureId timeframes)
    as [acts finished].
  cbn [fst] in H1. cbn [inserted flat_map app].
  fold (inserted (acts ++ (if finished
       then [CompleteCapture captureId; SetAnalysisStatus "Analysis complete!";
             ClearStatusLater]
       else [SetAnalysisStatus "Analysis failed"; ClearStatusLater]))%list).
  rewrite inserted_app, H1. destruct finished; cbn; now rewrite app_nil_r.
Qed.

(** X10: with a key, the insert requests [analyzeCapture] issues are those
    for the extracted structures of the timeframes 4h, 15m, 3m, 1m in this
    order, up to the first timeframe whose chart analysis does not yield a
    text (it throws, or it returns a null content, on which the extractor
    throws): the requests of the timeframes before it have been issued,
    and no later timeframe contributes. *)
Theorem analyzeCapture_inserted_rows (apiKey imageBase64 captureId : string) :
  key_missing (Some apiKey) = false ->
  inserted (analyzeCapture service user (Some apiKey) imageBase64 captureId)
    = flat_map (rows_of service user apiKey imageBase64 captureId)
               (take_while (chart_ok service apiKey imageBase64) timeframes) /\
  (forall tf,
     chart_ok service apiKey imageBase64 tf = true <->
     exists response text,
       service apiKey (OpenAIAnalyzer.ChartRequest imageBase64 tf) = Some response /\
       ok response = true /\ content response = TextContent text).
Proof.
  intros Hk. split; [now apply analyzeCapture_inserted_rows_core|].
  intros tf. unfold chart_ok, chart_text, chart_analysis.
  destruct (service apiKey _) as [response|].
  - destruct (ok response) eqn:Hok; cbn [negb].
    + destruct (content response) as [| |c] eqn:Hc; cbn.
      * split; [discriminate|]. intros (r & t & [= <-] & _ & H). congruence.
      * split; [discriminate|]. intros (r & t & [= <-] & _ & H). congruence.
      * split; [|reflexivity]. intros _. now exists response, c.
    + split; [discriminate|]. intros (r & t & [= <-] & H & _). congruence.
  - split; [discriminate|]. intros (r & t & H & _). discriminate.
Qed.

(** X11: with a key, [analyzeCapture] asks to mark the capture completed
    exactly when the chart analysis of each of the four timeframes returns a
    text, and then ends with the status "Analysis complete!"; otherwise it
    ends with the status "Analysis failed" and never asks to mark the
    capture.  That every chart analysis returns is not enough: a null
    content makes the extractor throw. *)
Theorem analyzeCapture_completion (apiKey imageBase64 captureId : string) :
  key_missing (Some apiKey) = false ->
  completes (analyzeCapture service user (Some apiKey) imageBase64 captureId)
    = forallb (chart_ok service apiKey imageBase64) timeframes /\
  (exists acts,
    completes acts = false /\
    analyzeCapture service user (Some apiKey) imageBase64 captureId
    = (SetAnalysisStatus "Analyzing chart..." :: acts ++
       if forallb (chart_ok service apiKey imageBase64) timeframes
       then [CompleteCapture captureId; SetAnalysisStatus "Analysis complete!";
             ClearStatusLater]
       else [SetAnalysisStatus "Analysis failed"; ClearStatusLater])%list) /\
  (forall tf,
     chart_ok service apiKey imageBase64 tf = true <->
     exists text,
       chart_analysis service apiKey imageBase64 tf = ChartReturned (Some text)) /\
  (forall tf,
     In tf timeframes ->
     chart_analysis service apiKey imageBase64 tf = ChartReturned None ->
     completes (analyzeCapture service user (Some apiKey) imageBase64 captureId)
       = false).
Proof.
  intros Hk.
  assert (Hcomp : completes (analyzeCapture service user (Some apiKey) imageBase64 captureId)
                  = forallb (chart_ok service apiKey imageBase64) timeframes /\
    exists acts,
    completes acts = false /\
    analyzeCapture service user (Some apiKey) imageBase64 captureId
    = (SetAnalysisStatus "Analyzing chart..." :: acts ++
       if forallb (chart_ok service apiKey imageBase64) timeframes
       then [CompleteCapture captureId; SetAnalysisStatus "Analysis complete!";
             ClearStatusLater]
       else [SetAnalysisStatus "Analysis failed"; ClearStatusLater])%list).
  { unfold analyzeCapture. rewrite Hk.
    pose proof (analyze_timeframes_spec apiKey imageBase64 captureId timeframes)
      as (_ & H2 & H3).
    destruct (analyze_timeframes service user apiKey imageBase64 captureId timeframes)
      as [acts finished].
    cbn [fst snd] in H2, H3. subst finished. split.
    - cbn [completes existsb orb].
      fold (completes (acts ++ (if forallb (chart_ok service apiKey imageBase64) timeframes
         then [CompleteCapture captureId; SetAnalysisStatus "Analysis complete!";
               ClearStatusLater]
         else [SetAnalysisStatus "Analysis failed"; ClearStatusLater]))%list).
      rewrite completes_app, H3.
      now destruct (forallb (chart_ok service apiKey imageBase64) timeframes).
    - exists acts. now split. }
  destruct Hcomp as (Hc & Hex). split; [exact Hc|]. split; [exact Hex|]. split.
  - intros tf. unfold chart_ok, chart_text.
    destruct (chart_analysis service apiKey imageBase64 tf) as [e|[text|]].
    + split; [discriminate|]. intros (t & H). discriminate.
    + split; [|reflexivity]. intros _. now exists text.
    + split; [discriminate|]. intros (t & H). discriminate.
  - intros tf Hin Hnull. rewrite Hc. apply not_true_is_false. intros Hall.
    rewrite forallb_forall in Hall. specialize (Hall tf Hin).
    unfold chart_ok, chart_text in Hall. rewrite Hnull in Hall. discriminate.
Qed.

(** X12: every row [analyzeCapture] inserts belongs to the capture and the
    user at hand, carries one of the four timeframe labels, a strictly
    positive price, the zero rectangle, and the confidence constant of its
    structure type. *)
Theorem analyzeCapture_rows_wellformed (openai_api_key : option string)
  (imageBase64 captureId : string) (row : StructureRow) :
  In row (inserted (analyzeCapture service user openai_api_key imageBase64 captureId)) ->
  capture_id row = captureId /\
  user_id row = user /\
  In (timeframe row) timeframes /\
  (0 < price_level row)%Q /\
  coordinates row = zero_rect /\
  confidence row = rule_confidence (structure_type row).
Proof.
  destruct (key_missing openai_api_key) eqn:Hk.
  - destruct (analyzeCapture_without_key_core _ imageBase64 captureId Hk) as (_ & -> & _).
    intros [].
  - destruct openai_api_key as [apiKey|]; [|discriminate].
    rewrite (analyzeCapture_inserted_rows_core _ _ _ Hk). intros Hin.
    apply in_flat_map in Hin as (tf & Htf & Hin).
    assert (Htf' : In tf timeframes).
    { clear -Htf. induction timeframes as [|t ts IH]; [destruct Htf|].
      cbn [take_while] in Htf. destruct (chart_ok service apiKey imageBase64 t).
      - destruct Htf as [<-|Htf]; [now left|right; now apply IH].
      - destruct Htf. }
    unfold rows_of in Hin.
    destruct (chart_text service apiKey imageBase64 tf) as [text|]; [|destruct Hin].
    apply in_map_iff in Hin as (s & <- & Hs).
    destruct (extracted_structure_invariants_core _ _ _ Hs) as (Hpos & Hconf & _ & _ & Hxy).
    destruct s as [ty d p c xy]. cbn in *. now repeat split.
Qed.

End CaptureProperties.

Lemma analyzeCapture_without_key_witness :
  CaptureFlow.key_missing (Some "") = true /\
  CaptureFlow.inserted
    (CaptureFlow.analyzeCapture CaptureSamples.steady_service (Some "user-1")
       (Some "") "png" "cap-1") = [].
Proof.
  assert (H : CaptureFlow.key_missing (Some "") = true) by reflexivity.
  destruct (analyzeCapture_without_key CaptureSamples.steady_service (Some "user-1")
              (Some "") "png" "cap-1" H) as (_ & Hins & _).
  split; [exact H|exact Hins].
Defined.

Lemma analyzeCapture_inserted_rows_witness :
  map CaptureFlow.timeframe
    (CaptureFlow.inserted
       (CaptureFlow.analyzeCapture CaptureSamples.flaky_service (Some "user-1")
          (Some "sk-test") "png" "cap-1"))
  = ["4h"; "15m"] /\
  map CaptureFlow.timeframe
    (CaptureFlow.inserted
       (CaptureFlow.analyzeCapture CaptureSamples.null_service (Some "user-1")
          (Some "sk-test") "png" "cap-1"))
  = ["4h"].
Proof.
  split.
  - rewrite (proj1 (analyzeCapture_inserted_rows CaptureSamples.flaky_service
                      (Some "user-1") "sk-test" "png" "cap-1" eq_refl)).
    vm_compute; reflexivity.
  - rewrite (proj1 (analyzeCapture_inserted_rows CaptureSamples.null_service
                      (Some "user-1") "sk-test" "png" "cap-1" eq_refl)).
    vm_compute; reflexivity.
Defined.

Lemma analyzeCapture_completion_witness :
  CaptureFlow.completes
    (CaptureFlow.analyzeCapture CaptureSamples.flaky_service (Some "user-1")
       (Some "sk-test") "png" "cap-1") = false /\
  CaptureFlow.completes
    (CaptureFlow.analyzeCapture CaptureSamples.steady_service (Some "user-1")
       (Some "sk-test") "png" "cap-1") = true /\
  forallb (CaptureFlow.chart_returns CaptureSamples.null_service "sk-test" "png")
          CaptureFlow.timeframes = true /\
  CaptureFlow.completes
    (CaptureFlow.analyzeCapture CaptureSamples.null_service (Some "user-1")
       (Some "sk-test") "png" "cap-1") = false.
Proof.
  split; [|split; [|split]].
  - rewrite (proj1 (analyzeCapture_completion CaptureSamples.flaky_service
                      (Some "user-1") "sk-test" "png" "cap-1" eq_refl)).
    vm_compute; reflexivity.
  - rewrite (proj1 (analyzeCapture_completion CaptureSamples.steady_service
                      (Some "user-1") "sk-test" "png" "cap-1" eq_refl)).
    vm_compute; reflexivity.
  - vm_compute; reflexivity.
  - apply (proj2 (proj2 (proj2 (analyzeCapture_completion CaptureSamples.null_service
                      (Some "user-1") "sk-test" "png" "cap-1" eq_refl))) "15m").
    + right; left; reflexivity.
    + vm_compute; reflexivity.
Defined.

Lemma analyzeCapture_rows_wellformed_witness :
  In {| CaptureFlow.user_id := Some "user-1"; CaptureFlow.capture_id := "cap-1";
        CaptureFlow.structure_type := order_block; CaptureFlow.direction := bullish;
        CaptureFlow.price_level := 99.5; CaptureFlow.confidence := 0.75;
        CaptureFlow.timeframe := "3m"; CaptureFlow.coordinates := zero_rect |}
     (CaptureFlow.inserted
        (CaptureFlow.analyzeCapture CaptureSamples.steady_service (Some "user-1")
           (Some "sk-test") "png" "cap-1")) /\
  In "3m" CaptureFlow.timeframes.
Proof.
  assert (H : In {| CaptureFlow.user_id := Some "user-1"; CaptureFlow.capture_id := "cap-1";
        CaptureFlow.structure_type := order_block; CaptureFlow.direction := bullish;
        CaptureFlow.price_level := 99.5; CaptureFlow.confidence := 0.75;
        CaptureFlow.timeframe := "3m"; CaptureFlow.coordinates := zero_rect |}
     (CaptureFlow.inserted
        (CaptureFlow.analyzeCapture CaptureSamples.steady_service (Some "user-1")
           (Some "sk-test") "png" "cap-1")))
    by (vm_compute; right; right; left; reflexivity).
  split; [exact H|].
  exact (proj1 (proj2 (proj2 (analyzeCapture_rows_wellformed _ _ _ _ _ _ H)))).
Defined.

(** ** Settings *)

(** X13: saving the settings and loading them again gives back the saved
    key and switches, and each number field as the database returns it: a
    number comes back unchanged, while a field holding NaN (a cleared number
    input) is stored as NULL and comes back as null.  So the form that was
    saved comes back exactly when none of its number fields is NaN.  The row
    keeps its id when the user had one and is inserted otherwise; the rows
    of other users are untouched.  When the write fails the table is
    unchanged and the message is "Error saving settings". *)
Theorem settings_save_then_load (u fresh_id now message : string)
  (form other : Settings.Form) (t : gmap string Settings.Row) :
  (Settings.loadSettings (Some u) true
     (fst (Settings.saveSettings (Some u) true fresh_id now form message t)) other
     = {| Settings.openaiKey := Settings.openaiKey form;
          Settings.captureInterval :=
            Settings.from_column (Settings.to_column (Settings.captureInterval form));
          Settings.confidenceThreshold :=
            Settings.from_column (Settings.to_column (Settings.confidenceThreshold form));
          Settings.riskRewardRatio :=
            Settings.from_column (Settings.to_column (Settings.riskRewardRatio form));
          Settings.alertSound := Settings.alertSound form;
          Settings.alertToast := Settings.alertToast form |} /\
   (Settings.captureInterval form <> Settings.NaN ->
    Settings.confidenceThreshold form <> Settings.NaN ->
    Settings.riskRewardRatio form <> Settings.NaN ->
    Settings.loadSettings (Some u) true
      (fst (Settings.saveSettings (Some u) true fresh_id now form message t)) other
      = form) /\
   (Settings.captureInterval form = Settings.NaN ->
    Settings.captureInterval
      (Settings.loadSettings (Some u) true
         (fst (Settings.saveSettings (Some u) true fresh_id now form message t)) other)
      = Settings.Null) /\
   snd (Settings.saveSettings (Some u) true fresh_id now form message t)
     = "Settings saved successfully" /\
   (forall v, v <> u ->
      fst (Settings.saveSettings (Some u) true fresh_id now form message t) !! v
        = t !! v) /\
   Settings.id <$>
     (fst (Settings.saveSettings (Some u) true fresh_id now form message t) !! u)
     = Some (match t !! u with
             | Some existing => Settings.id existing
             | None => fresh_id
             end)) /\
  Settings.saveSettings (Some u) false fresh_id now form message t
    = (t, "Error saving settings").
Proof.
  assert (Hload : Settings.loadSettings (Some u) true
     (fst (Settings.saveSettings (Some u) true fresh_id now form message t)) other
     = {| Settings.openaiKey := Settings.openaiKey form;
          Settings.captureInterval :=
            Settings.from_column (Settings.to_column (Settings.captureInterval form));
          Settings.confidenceThreshold :=
            Settings.from_column (Settings.to_column (Settings.confidenceThreshold form));
          Settings.riskRewardRatio :=
            Settings.from_column (Settings.to_column (Settings.riskRewardRatio form));
          Settings.alertSound := Settings.alertSound form;
          Settings.alertToast := Settings.alertToast form |}).
  { unfold Settings.saveSettings, Settings.loadSettings.
    destruct (t !! u) as [existing|]; cbn [fst negb];
      now rewrite lookup_insert_eq. }
  split.
  - split; [exact Hload|]. split; [|split].
    + intros H1 H2 H3. rewrite Hload. destruct form as [k ci ct rr sa ta]. cbn in *.
      destruct ci as [?| |]; try contradiction;
        destruct ct as [?| |]; try contradiction;
        destruct rr as [?| |]; try contradiction; reflexivity.
    + intros HNaN. rewrite Hload. cbn. now rewrite HNaN.
    + unfold Settings.saveSettings.
      destruct (t !! u) as [existing|] eqn:Hu; cbn [fst snd];
        rewrite ?lookup_insert_eq; (split; [reflexivity|]);
        (split; [|reflexivity]); intros v Hv; now rewrite lookup_insert_ne.
  - unfold Settings.saveSettings. now destruct (t !! u).
Qed.

(** X14: the key that [analyzeCapture] reads after a successful save is the
    key of the saved form; when that key is empty the capture analysis
    reports that no key is configured and inserts nothing. *)
Theorem saved_key_drives_capture
  (service : string -> OpenAIAnalyzer.Request -> option CaptureFlow.ChartResponse)
  (u fresh_id now message imageBase64 captureId : string)
  (form : Settings.Form) (t : gmap string Settings.Row) :
  Settings.stored_key (Some u)
    (fst (Settings.saveSettings (Some u) true fresh_id now form message t))
    = Some (Settings.openaiKey form) /\
  (Settings.openaiKey form = "" ->
   CaptureFlow.analyzeCapture service (Some u)
     (Settings.stored_key (Some u)
        (fst (Settings.saveSettings (Some u) true fresh_id now form message t)))
     imageBase64 captureId
   = [CaptureFlow.SetAnalysisStatus "Analyzing chart...";
      CaptureFlow.SetAnalysisStatus "OpenAI API key not configured";
      CaptureFlow.ClearStatusLater]).
Proof.
  assert (Hk : Settings.stored_key (Some u)
                 (fst (Settings.saveSettings (Some u) true fresh_id now form message t))
               = Some (Settings.openaiKey form)).
  { unfold Settings.stored_key, Settings.saveSettings.
    destruct (t !! u); cbn [fst]; now rewrite lookup_insert_eq. }
  split; [exact Hk|]. intros Hempty. rewrite Hk, Hempty.
  now apply analyzeCapture_without_key_core.
Qed.

Lemma saved_key_drives_capture_witness :
  CaptureFlow.inserted
    (CaptureFlow.analyzeCapture CaptureSamples.steady_service (Some "user-1")
       (Settings.stored_key (Some "user-1")
          (fst (Settings.saveSettings (Some "user-1") true "row-1" "2025-10-16"
                  Settings.initial_form "" empty)))
       "png" "cap-1") = [].
Proof.
  rewrite (proj2 (saved_key_drives_capture CaptureSamples.steady_service
                    "user-1" "row-1" "2025-10-16" "" "png" "cap-1"
                    Settings.initial_form empty) eq_refl).
  reflexivity.
Defined.

(** ** Alerts *)

Section AlertProperties.
Import AlertSystem AlertToasts.
Variable toFixed2 : Q -> string.
Variable toUpperCase : string -> string.

Lemma showAlert_toasts (render : Render) (signal : Signal) (w : World) :
  toasts (showAlert toFixed2 toUpperCase render signal w) =
  (toasts w ++ if notificationsEnabled render
               then [toast_of toFixed2 toUpperCase signal] else [])%list.
Proof.
  unfold showAlert, playAlertSound, toast_of.
  destruct w as [ts sw grant tbl tr], render as [snd ntf]; cbn.
  destruct ntf, snd, grant; cbn; rewrite ?app_nil_r; reflexivity.
Qed.

Lemma deliver_cons (r : Render) (p : Signal) (ps : list Signal) (w : World) :
  deliver toFixed2 toUpperCase r (p :: ps) w
    = deliver toFixed2 toUpperCase r ps (on_insert toFixed2 toUpperCase r p w).
Proof. reflexivity. Qed.

Lemma removeToast_on_insert (r : Render) (signal : Signal) (w : World) :
  toasts (removeToast (id signal) (on_insert toFixed2 toUpperCase r signal w))
    = toasts (removeToast (id signal) w).
Proof.
  unfold on_insert. destruct (alert_sent signal); cbn [negb]; [reflexivity|].
  unfold removeToast. cbn [toasts]. rewrite showAlert_toasts, List.filter_app.
  destruct (notificationsEnabled r); cbn [List.filter toast_of toast_id];
    rewrite ?String.eqb_refl; cbn [negb]; now rewrite app_nil_r.
Qed.

(** X15: all toasts of one signal share its id, so one [removeToast] for
    that id clears the toasts of every earlier delivery of the signal,
    however often it was delivered: what remains is the list of toasts
    shown before those deliveries without the ones of that id, the toasts of
    other ids unchanged and in their order. *)
Theorem removeToast_clears_repeated (subscribed : Render) (signal : Signal)
  (n : nat) (w : World) :
  toasts (removeToast (id signal)
            (deliver toFixed2 toUpperCase subscribed (repeat signal n) w))
    = List.filter (fun toast => negb (String.eqb (toast_id toast) (id signal)))
                  (toasts w) /\
  (forall toast,
     In toast (toasts (removeToast (id signal)
                         (deliver toFixed2 toUpperCase subscribed (repeat signal n) w)))
     <-> In toast (toasts w) /\ toast_id toast <> id signal).
Proof.
  assert (Heq : toasts (removeToast (id signal)
                  (deliver toFixed2 toUpperCase subscribed (repeat signal n) w))
                = toasts (removeToast (id signal) w)).
  { revert w. induction n as [|n IH]; intros w; [reflexivity|].
    cbn [repeat]. now rewrite deliver_cons, IH, removeToast_on_insert. }
  split; [exact Heq|].
  intros toast. rewrite Heq. unfold removeToast. cbn [toasts].
  rewrite List.filter_In. split.
  - intros [Hin Hne]. split; [exact Hin|].
    intros Hid. rewrite Hid, String.eqb_refl in Hne. discriminate.
  - intros [Hin Hne]. split; [exact Hin|].
    destruct (String.eqb_spec (toast_id toast) (id signal)); [contradiction|reflexivity].
Qed.

Lemma on_insert_table (r : Render) (payload : Signal) (w : World) (i : string) :
  table (on_insert toFixed2 toUpperCase r payload w) !! i =
  (fun b => b || (negb (alert_sent payload) && String.eqb (id payload) i))
    <$> (table w !! i).
Proof.
  unfold on_insert. destruct (alert_sent payload); cbn [negb andb].
  - destruct (table w !! i) as [b|]; cbn; [now rewrite orb_false_r|reflexivity].
  - rewrite showAlert_table. destruct (String.eqb_spec (id payload) i) as [->|Hne].
    + rewrite lookup_alter_eq. destruct (table w !! i) as [b|]; cbn;
        [now rewrite orb_true_r|reflexivity].
    + rewrite lookup_alter_ne by exact Hne.
      destruct (table w !! i) as [b|]; cbn; [now rewrite orb_false_r|reflexivity].
Qed.

(** X16: after any run of deliveries, a row's [alert_sent] is true exactly
    when it was true before or some delivered payload with that row's id had
    its own [alert_sent] false; no row is created or removed, a flag that is
    true is never cleared, and rows that no payload names keep their flag. *)
Theorem deliver_table (subscribed : Render) (payloads : list Signal) (w : World)
  (i : string) :
  table (deliver toFixed2 toUpperCase subscribed payloads w) !! i =
  (fun b => b || existsb (fun p => negb (alert_sent p) && String.eqb (id p) i) payloads)
    <$> (table w !! i).
Proof.
  revert w. induction payloads as [|p ps IH]; intros w.
  - cbn. destruct (table w !! i) as [b|]; cbn; [now rewrite orb_false_r|reflexivity].
  - rewrite deliver_cons. cbn [existsb].
    rewrite IH, on_insert_table. destruct (table w !! i) as [b|]; cbn; [|reflexivity].
    now rewrite orb_assoc.
Qed.

Lemma on_insert_toggleSound (r : Render) (payload : Signal) (w : World) :
  on_insert toFixed2 toUpperCase r payload (toggleSound w)
    = toggleSound (on_insert toFixed2 toUpperCase r payload w).
Proof.
  unfold on_insert. destruct (alert_sent payload); cbn [negb]; [reflexivity|].
  apply showAlert_toggleSound.
Qed.

Lemma on_insert_toggleNotifications (r : Render) (payload : Signal) (w : World) :
  on_insert toFixed2 toUpperCase r payload (toggleNotifications w)
    = toggleNotifications (on_insert toFixed2 toUpperCase r payload w).
Proof.
  unfold on_insert. destruct (alert_sent payload); cbn [negb]; [reflexivity|].
  apply showAlert_toggleNotifications.
Qed.

(** X17: the switches a delivery obeys are those of the render that
    subscribed, not the current ones.  Clicking Mute or Disable after the
    subscription changes the component state but not the toasts, the trace
    or the table a delivery produces: with the subscription made at mount
    (both switches on) a new signal still shows its toast and plays the
    sound after both were switched off.  Only a subscription made in a
    render with both switches off (and no browser permission) is silent,
    and even then the row is marked as alerted. *)
Theorem alerts_follow_subscribing_render (subscribed : Render) (signal : Signal)
  (w : World) :
  alert_sent signal = false ->
  toasts (on_insert toFixed2 toUpperCase subscribed signal
            (toggleSound (toggleNotifications w)))
    = toasts (on_insert toFixed2 toUpperCase subscribed signal w) /\
  trace (on_insert toFixed2 toUpperCase subscribed signal
           (toggleSound (toggleNotifications w)))
    = trace (on_insert toFixed2 toUpperCase subscribed signal w) /\
  table (on_insert toFixed2 toUpperCase subscribed signal
           (toggleSound (toggleNotifications w)))
    = table (on_insert toFixed2 toUpperCase subscribed signal w) /\
  (subscribed = initial_switches ->
   trace (on_insert toFixed2 toUpperCase subscribed signal
            (toggleSound (toggleNotifications w)))
   = (trace w ++ [ShowToast (toast_of toFixed2 toUpperCase signal);
                  ScheduleRemoveToast (id signal); PlaySound]
              ++ if notificationGranted w
                 then [SystemNotification
                         (message (toast_of toFixed2 toUpperCase signal)) (id signal)]
                 else [])%list) /\
  (soundEnabled subscribed = false -> notificationsEnabled subscribed = false ->
   notificationGranted w = false ->
   trace (on_insert toFixed2 toUpperCase subscribed signal w) = trace w /\
   toasts (on_insert toFixed2 toUpperCase subscribed signal w) = toasts w /\
   forall b, table w !! id signal = Some b ->
     table (on_insert toFixed2 toUpperCase subscribed signal w) !! id signal
       = Some true).
Proof.
  intros Hflag.
  rewrite on_insert_toggleSound, on_insert_toggleNotifications.
  split; [reflexivity|]. split; [reflexivity|]. split; [reflexivity|].
  unfold on_insert. rewrite Hflag. cbn [negb].
  rewrite showAlert_trace, showAlert_toasts, showAlert_table. split.
  - intros ->. cbn [toggleSound toggleNotifications trace].
    rewrite ?showAlert_trace. unfold alert_effects.
    cbn [initial_switches notificationsEnabled soundEnabled].
    cbn [toast_of toast_id app]. reflexivity.
  - intros Hs Hn Hg. unfold alert_effects. rewrite Hs, Hn, Hg. cbn.
    rewrite !app_nil_r. repeat split. intros b Hb. now rewrite lookup_alter_eq, Hb.
Qed.

End AlertProperties.

Lemma alerts_follow_subscribing_render_witness :
  AlertSystem.switches
    (AlertSystem.toggleSound (AlertSystem.toggleNotifications Samples.sample_world))
  = {| AlertSystem.soundEnabled := false; AlertSystem.notificationsEnabled := false |} /\
  AlertSystem.trace
    (AlertSystem.on_insert Samples.sample_toFixed2 Samples.sample_toUpperCase
       (AlertSystem.subscribe Samples.sample_world) Samples.sample_signal
       (AlertSystem.toggleSound (AlertSystem.toggleNotifications Samples.sample_world)))
  = [AlertSystem.ShowToast
       (toast_of Samples.sample_toFixed2 Samples.sample_toUpperCase Samples.sample_signal);
     AlertSystem.ScheduleRemoveToast "sig-1";
     AlertSystem.PlaySound;
     AlertSystem.SystemNotification "BUY Signal at $102.00" "sig-1"].
Proof.
  split; [reflexivity|].
  destruct (alerts_follow_subscribing_render Samples.sample_toFixed2
              Samples.sample_toUpperCase (AlertSystem.subscribe Samples.sample_world)
              Samples.sample_signal Samples.sample_world eq_refl)
    as (_ & _ & _ & Hmount & _).
  rewrite (Hmount eq_refl). vm_compute; reflexivity.
Defined.

Lemma settings_save_then_load_witness :
  Settings.loadSettings (Some "user-1") true
    (fst (Settings.saveSettings (Some "user-1") true "row-1" "2025-10-16"
            CaptureSamples.sample_form "" empty))
    Settings.initial_form
  = CaptureSamples.sample_form /\
  Settings.captureInterval
    (Settings.loadSettings (Some "user-1") true
       (fst (Settings.saveSettings (Some "user-1") true "row-1" "2025-10-16"
               CaptureSamples.cleared_form "" empty))
       Settings.initial_form)
  = Settings.Null /\
  fst (Settings.saveSettings (Some "user-1") true "row-1" "2025-10-16"
         CaptureSamples.sample_form "" empty) !! "user-2" = None.
Proof.
  destruct (settings_save_then_load "user-1" "row-1" "2025-10-16" ""
              CaptureSamples.sample_form Settings.initial_form empty)
    as ((_ & Hload & _ & _ & Hframe & _) & _).
  destruct (settings_save_then_load "user-1" "row-1" "2025-10-16" ""
              CaptureSamples.cleared_form Settings.initial_form empty)
    as ((_ & _ & Hnan & _) & _).
  split; [apply Hload; discriminate|]. split; [apply Hnan; reflexivity|].
  rewrite (Hframe "user-2"); [reflexivity|discriminate].
Defined.

Lemma removeToast_clears_repeated_witness :
  length (AlertSystem.toasts
            (AlertToasts.deliver Samples.sample_toFixed2 Samples.sample_toUpperCase
               AlertSystem.initial_switches
               (repeat Samples.sample_signal 2) Samples.sample_world)) = 2 /\
  AlertSystem.toasts
    (AlertToasts.removeToast "sig-1"
       (AlertToasts.deliver Samples.sample_toFixed2 Samples.sample_toUpperCase
          AlertSystem.initial_switches
          (repeat Samples.sample_signal 2) Samples.sample_world)) = [].
Proof.
  split; [vm_compute; reflexivity|].
  exact (proj1 (removeToast_clears_repeated Samples.sample_toFixed2
                  Samples.sample_toUpperCase AlertSystem.initial_switches
                  Samples.sample_signal 2 Samples.sample_world)).
Defined.

(** ** The market-structure list *)

(** X18: in the market-structure list every extracted structure gets a green
    confidence bar, except liquidity structures (confidence 0.7), which get
    a yellow one; no extracted structure gets a red bar. *)
Theorem extracted_bar_colour (text tf : string) (s : MarketStructure) :
  In s (extractStructuresFromAnalysis text tf) ->
  MarkerView.confidence_bar (confidence s) =
  match type s with
  | liquidity => MarkerView.bg_yellow
  | _ => MarkerView.bg_emerald
  end.
Proof.
  intros Hs. destruct (extracted_structure_invariants_core _ _ _ Hs) as (_ & -> & _).
  now destruct (type s).
Qed.

Lemma extracted_bar_colour_witness :
  In {| type := liquidity; direction := bullish; priceLevel := 2010;
        confidence := 0.7; coordinates := zero_rect |}
     (extractStructuresFromAnalysis "Liquidity above 2,010" "4h") /\
  MarkerView.confidence_bar 0.7 = MarkerView.bg_yellow.
Proof.
  assert (H : In {| type := liquidity; direction := bullish; priceLevel := 2010;
                    confidence := 0.7; coordinates := zero_rect |}
                 (extractStructuresFromAnalysis "Liquidity above 2,010" "4h"))
    by (vm_compute; left; reflexivity).
  split; [exact H|]. exact (extracted_bar_colour _ _ _ H).
Defined.

(** ** The signal list *)

Lemma one_of_In (values : list string) (v : string) :
  TradingSignals.one_of values v = true <-> In v values.
Proof.
  unfold TradingSignals.one_of. rewrite existsb_exists. split.
  - intros (x & Hx & Heq). apply String.eqb_eq in Heq. now subst.
  - intros H. exists v. split; [exact H|apply String.eqb_refl].
Qed.

Lemma In_firstn {A : Type} (n : nat) (l : list A) (a : A) :
  In a (firstn n l) -> In a l.
Proof.
  revert l; induction n as [|n IH]; intros [|b l]; cbn; try tauto.
  intros [->|H]; [now left|right; now apply IH].
Qed.

Lemma loadSignals_listing {Row : Type} (st : Row -> string)
  (filter : TradingSignals.Filter) (rows : list Row) :
  length (TradingSignals.loadSignals st filter rows) <= 50 /\
  (forall r, In r (TradingSignals.loadSignals st filter rows) ->
     In r rows /\ TradingSignals.status_selected filter (st r) = true) /\
  TradingSignals.loadSignals st TradingSignals.all rows = firstn 50 rows.
Proof.
  unfold TradingSignals.loadSignals. split; [apply firstn_le_length|]. split.
  - intros r H. apply In_firstn in H. now apply List.filter_In in H.
  - f_equal. cbn [TradingSignals.status_selected].
    induction rows as [|r rs IH]; [reflexivity|]. cbn [List.filter]. now rewrite IH.
Qed.

(** X19: the "active" and "completed" filters of the signal list never
    select the same status, and each of the five statuses pending, active,
    triggered, expired, cancelled is selected by exactly one of them; a row
    with any other status is listed only under "all".  Whatever the filter,
    at most 50 rows are listed, each taken from the user's rows and
    satisfying the filter, and "all" lists the first 50 rows. *)
Theorem signal_filters (status : string) :
  (TradingSignals.status_selected TradingSignals.active status
     && TradingSignals.status_selected TradingSignals.completed status = false) /\
  (In status ["pending"; "active"; "triggered"; "expired"; "cancelled"] <->
   xorb (TradingSignals.status_selected TradingSignals.active status)
        (TradingSignals.status_selected TradingSignals.completed status) = true) /\
  (forall (Row : Type) (st : Row -> string) (filter : TradingSignals.Filter)
          (rows : list Row),
     length (TradingSignals.loadSignals st filter rows) <= 50 /\
     (forall r, In r (TradingSignals.loadSignals st filter rows) ->
        In r rows /\ TradingSignals.status_selected filter (st r) = true) /\
     TradingSignals.loadSignals st TradingSignals.all rows = firstn 50 rows).
Proof.
  split; [|split; [|intros Row st filter rows; apply loadSignals_listing]];
    cbn [TradingSignals.status_selected];
    destruct (TradingSignals.one_of ["pending"; "active"] status) eqn:Ha;
    destruct (TradingSignals.one_of ["triggered"; "expired"; "cancelled"] status) eqn:Hc;
    try reflexivity.
  - apply one_of_In in Ha, Hc. exfalso.
    destruct Ha as [<-|[<-|[]]]; destruct Hc as [H|[H|[H|[]]]]; discriminate.
  - apply one_of_In in Ha, Hc. exfalso.
    destruct Ha as [<-|[<-|[]]]; destruct Hc as [H|[H|[H|[]]]]; discriminate.
  - apply one_of_In in Ha. split; [reflexivity|]. intros _.
    destruct Ha as [<-|[<-|[]]]; cbn; auto.
  - apply one_of_In in Hc. split; [reflexivity|]. intros _.
    destruct Hc as [<-|[<-|[<-|[]]]]; cbn; auto 6.
  - split; [|discriminate]. intros Hin. exfalso.
    assert (Ha' : ~ In status ["pending"; "active"])
      by (intros H; apply one_of_In in H; congruence).
    assert (Hc' : ~ In status ["triggered"; "expired"; "cancelled"])
      by (intros H; apply one_of_In in H; congruence).
    cbn in Hin, Ha', Hc'. tauto.
Qed.

Lemma signal_filters_witness :
  TradingSignals.loadSignals (fun r : string * string => snd r) TradingSignals.active
    [("s1", "pending"); ("s2", "triggered"); ("s3", "active"); ("s4", "paused")]
  = [("s1", "pending"); ("s3", "active")] /\
  TradingSignals.status_selected TradingSignals.completed "pending" = false.
Proof.
  split; [vm_compute; reflexivity|].
  destruct (signal_filters "pending") as (Hdisj & _).
  apply andb_false_iff in Hdisj as [H|H]; [discriminate H|exact H].
Defined.

(** ** Uploading training material *)

Section UploadProperties.
Import TrainingUpload.
Variable user : option string.
Variable storage_upload : string -> File -> bool.
Variable getPublicUrl : string -> string.
Variable db_insert : File -> string -> bool.

Lemma update_file_miss (i : string) (g : UploadedFile -> UploadedFile)
  (l : list UploadedFile) :
  ~ In i (map id l) -> update_file i g l = l.
Proof.
  induction l as [|f l IH]; [reflexivity|]. cbn [map In update_file]. intros Hn.
  fold (update_file i g l). rewrite IH by tauto.
  destruct (String.eqb_spec (id f) i) as [Heq|_]; [tauto|reflexivity].
Qed.

Lemma update_file_hit (i : string) (g : UploadedFile -> UploadedFile)
  (done tail : list UploadedFile) (e : UploadedFile) :
  ~ In i (map id done) -> ~ In i (map id tail) -> id e = i ->
  update_file i g (done ++ e :: tail)%list = (done ++ g e :: tail)%list.
Proof.
  intros Hd Ht He. unfold update_file. rewrite map_app. cbn [map].
  fold (update_file i g done). fold (update_file i g tail).
  rewrite (update_file_miss _ _ _ Hd), (update_file_miss _ _ _ Ht).
  now rewrite He, String.eqb_refl.
Qed.

Lemma upload_one_settles (item : File * string) (done tail : list UploadedFile) :
  ~ In (snd item) (map id done) -> ~ In (snd item) (map id tail) ->
  upload_one user storage_upload getPublicUrl db_insert (fst item) (new_entry item)
    (done ++ new_entry item :: tail)%list
  = (done ++ settled user storage_upload getPublicUrl db_insert item :: tail)%list.
Proof.
  intros Hd Ht. unfold upload_one, settled. cbn [new_entry id].
  destruct (storage_upload _ (fst item)); cbn [negb andb].
  - rewrite (update_file_hit (snd item) _ done tail _ Hd Ht) by reflexivity.
    destruct user as [u|].
    + destruct (db_insert (fst item) _); cbn [negb];
        now rewrite (update_file_hit (snd item) _ done tail _ Hd Ht) by reflexivity.
    + now rewrite (update_file_hit (snd item) _ done tail _ Hd Ht) by reflexivity.
  - now rewrite (update_file_hit (snd item) _ done tail _ Hd Ht) by reflexivity.
Qed.

Lemma upload_loop_settles (rest : list (File * string)) (done : list UploadedFile) :
  List.NoDup (map id done ++ map snd rest)%list ->
  fold_left (fun files item =>
               upload_one user storage_upload getPublicUrl db_insert
                 (fst item) (new_entry item) files)
            rest (done ++ map new_entry rest)%list
  = (done ++ map (settled user storage_upload getPublicUrl db_insert) rest)%list.
Proof.
  revert done. induction rest as [|item rest IH]; intros done Hnd; [reflexivity|].
  cbn [map fold_left] in *.
  pose proof (List.NoDup_remove_2 _ _ _ Hnd) as Hnotin.
  rewrite upload_one_settles.
  - change (done ++ settled user storage_upload getPublicUrl db_insert item
              :: map new_entry rest)%list
      with (done ++ [settled user storage_upload getPublicUrl db_insert item]
              ++ map new_entry rest)%list.
    rewrite app_assoc, IH; [now rewrite <- app_assoc|].
    rewrite map_app, <- app_assoc. exact Hnd.
  - intros Hin. apply Hnotin. apply in_or_app. now left.
  - intros Hin. apply Hnotin. apply in_or_app. right.
    rewrite map_map in Hin. exact Hin.
Qed.

(** X20: when the identifiers drawn for the new files are distinct from each
    other and from those already listed, [handleFiles] leaves the earlier
    entries as they were and appends one entry per file, in order; each new
    entry ends as completed when the user is signed in and both its upload
    and its database insert succeed, and as error otherwise (with progress
    100 when the upload itself succeeded); no entry is left uploading or
    processing, and a failed file does not stop the files after it. *)
Theorem handleFiles_settles (fileList : list (File * string))
  (prev : list UploadedFile) :
  List.NoDup (map id prev ++ map snd fileList)%list ->
  handleFiles user storage_upload getPublicUrl db_insert fileList prev
    = (prev ++ map (settled user storage_upload getPublicUrl db_insert) fileList)%list /\
  (forall f, In f (map (settled user storage_upload getPublicUrl db_insert) fileList) ->
     status f = completed \/ status f = error).
Proof.
  intros Hnd. split; [now apply upload_loop_settles|].
  intros f Hin. apply in_map_iff in Hin as (item & <- & _).
  unfold settled. cbn [status]. destruct (_ && _); auto.
Qed.

End UploadProperties.

Lemma handleFiles_settles_witness :
  map TrainingUpload.status
    (TrainingUpload.handleFiles (Some "user-1") CaptureSamples.sample_upload
       (fun path => "https://cdn/" ++ path) (fun _ _ => true)
       CaptureSamples.sample_files [])
  = [TrainingUpload.completed; TrainingUpload.error; TrainingUpload.completed].
Proof.
  assert (H : List.NoDup (map TrainingUpload.id [] ++ map snd CaptureSamples.sample_files)%list).
  { cbn. repeat constructor; cbn; intros H;
      repeat (destruct H as [H|H]; [discriminate H|]); exact H. }
  rewrite (proj1 (handleFiles_settles (Some "user-1") CaptureSamples.sample_upload
                    (fun path => "https://cdn/" ++ path) (fun _ _ => true)
                    CaptureSamples.sample_files [] H)).
  vm_compute; reflexivity.
Defined.

(** X21: when the service answers the chart request of each of the four
    timeframes with an ok response whose content is a text, [analyzeCapture]
    announces each timeframe, issues one insert request for every structure
    extracted from that timeframe's reply text (in the order 4h, 15m, 3m,
    1m), then asks to mark the capture completed and reports "Analysis
    complete!". *)
Theorem analyzeCapture_success
  (service : string -> OpenAIAnalyzer.Request -> option CaptureFlow.ChartResponse)
  (user : option string) (apiKey imageBase64 captureId : string)
  (reply : string -> string) :
  CaptureFlow.key_missing (Some apiKey) = false ->
  (forall tf, In tf CaptureFlow.timeframes ->
     exists response,
       service apiKey (OpenAIAnalyzer.ChartRequest imageBase64 tf) = Some response /\
       CaptureFlow.ok response = true /\
       CaptureFlow.content response = CaptureFlow.TextContent (reply tf)) ->
  CaptureFlow.analyzeCapture service user (Some apiKey) imageBase64 captureId
  = (CaptureFlow.SetAnalysisStatus "Analyzing chart..." ::
     flat_map
       (fun tf =>
          CaptureFlow.SetAnalysisStatus ("Analyzing " ++ tf ++ " timeframe...") ::
          map (fun st =>
                 CaptureFlow.InsertStructure
                   (CaptureFlow.insert_row user captureId tf st))
              (extractStructuresFromAnalysis (reply tf) tf))
       CaptureFlow.timeframes
     ++ [CaptureFlow.CompleteCapture captureId;
         CaptureFlow.SetAnalysisStatus "Analysis complete!";
         CaptureFlow.ClearStatusLater])%list.
Proof.
  intros Hk Hall. unfold CaptureFlow.analyzeCapture. rewrite Hk. f_equal.
  assert (Hloop : forall tfs,
    (forall tf, In tf tfs -> In tf CaptureFlow.timeframes) ->
    CaptureFlow.analyze_timeframes service user apiKey imageBase64 captureId tfs
    = (flat_map
         (fun tf =>
            CaptureFlow.SetAnalysisStatus ("Analyzing " ++ tf ++ " timeframe...") ::
            map (fun st =>
                   CaptureFlow.InsertStructure
                     (CaptureFlow.insert_row user captureId tf st))
                (extractStructuresFromAnalysis (reply tf) tf))
         tfs, true)).
  { induction tfs as [|tf rest IH]; intros Hsub; [reflexivity|].
    cbn [CaptureFlow.analyze_timeframes flat_map].
    destruct (Hall tf (Hsub tf (or_introl eq_refl))) as (response & Hf & Hok & Hc).
    unfold CaptureFlow.chart_analysis. rewrite Hf, Hok, Hc.
    cbn [negb CaptureFlow.extract_or_throw OpenAIAnalyzer.analysis
         OpenAIAnalyzer.parseAnalysis].
    rewrite IH by (intros tf' Hin; apply Hsub; now right).
    reflexivity. }
  rewrite Hloop by auto. reflexivity.
Qed.

Lemma analyzeCapture_success_witness :
  CaptureFlow.analyzeCapture CaptureSamples.steady_service (Some "user-1")
    (Some "sk-test") "png" "cap-1"
  = (CaptureFlow.SetAnalysisStatus "Analyzing chart..." ::
     flat_map
       (fun tf =>
          [CaptureFlow.SetAnalysisStatus ("Analyzing " ++ tf ++ " timeframe...");
           CaptureFlow.InsertStructure
             {| CaptureFlow.user_id := Some "user-1"; CaptureFlow.capture_id := "cap-1";
                CaptureFlow.structure_type := order_block;
                CaptureFlow.direction := bullish;
                CaptureFlow.price_level := 99.5; CaptureFlow.confidence := 0.75;
                CaptureFlow.timeframe := tf; CaptureFlow.coordinates := zero_rect |}])
       CaptureFlow.timeframes
     ++ [CaptureFlow.CompleteCapture "cap-1";
         CaptureFlow.SetAnalysisStatus "Analysis complete!";
         CaptureFlow.ClearStatusLater])%list.
Proof.
  rewrite (analyzeCapture_success CaptureSamples.steady_service (Some "user-1")
             "sk-test" "png" "cap-1" (fun _ => "Order block (demand) at 99.5") eq_refl).
  - vm_compute; reflexivity.
  - intros tf _. eexists. split; [reflexivity|]. split; reflexivity.
Defined.

Lemma extractPrice_none_iff_no_digit_witness :
  has_digit "Order block (demand) below $ -- no level" = false /\
  extractPrice "Order block (demand) below $ -- no level" = None.
Proof.
  assert (H : has_digit "Order block (demand) below $ -- no level" = false)
    by reflexivity.
  split; [exact H|].
  exact (proj2 (extractPrice_none_iff_no_digit _) H).
Defined.
